(** * seller.py: reconciliation of a supplier feed with an Ozon catalog

    A shallow embedding of [src/seller.py] and the properties of its
    reconciliation ([create_stocks], [create_prices], [price_conversion]),
    batching ([divide]), pagination ([get_offer_ids]) and scheduled entry
    point ([main]).

    Conventions.
    - A Python [str] is a [string]: the UTF-8 bytes of the text.  The source
      only compares strings for equality, splits on the ASCII full stop and
      keeps ASCII digits; no byte of a multi-byte UTF-8 sequence is an ASCII
      byte, so these operations agree on bytes and on code points.
    - A Python [int] is a [Z].
    - An exception is a value of [exn]; a computation that may raise returns a
      [result].
    - The list [offer_ids] that [create_stocks] mutates is the state of a
      state-and-exception monad [M]; the state survives a raise, as a Python
      object does.
    - The cells of the supplier's sheet are text, integers or absent; [str]
      of an integer is modelled without CPython's limit of 4300 digits, and
      the statements that depend on it are made for [printable] cells.
    - An answer of the marketplace is a page with its items, total and
      cursor; an answer without them, on which lines 73-75 raise, is not
      modelled. *)

From Stdlib Require Import ZArith String Ascii Bool Lia ZifyBool DecimalString Permutation List.
Import ListNotations.

#[local] Open Scope string_scope.
#[local] Open Scope list_scope.
#[local] Open Scope Z_scope.

(** ** Exceptions and results *)

(** The exceptions the modelled code can raise.  [HTTPError] stands for
    whatever [requests] raises on a failed call ([raise_for_status], a
    transport error). *)
Inductive exn : Type :=
| ValueError
| TypeError
| AttributeError
| HTTPError.

Inductive result (A : Type) : Type :=
| Ok (a : A)
| Raise (e : exn).

Arguments Ok {A} a.
Arguments Raise {A} e.

Definition result_bind {A B} (r : result A) (k : A -> result B) : result B :=
  match r with
  | Ok a => k a
  | Raise e => Raise e
  end.

(** ** Python values and builtins *)

Module Py.

(** The values a cell of the supplier's sheet holds in this model: text, an
    integer, or nothing ([dict.get] of an absent key gives [None]).  Floats,
    dates and booleans are not modelled. *)
Inductive obj : Type :=
| None_
| Int (z : Z)
| Str (s : string).

(** [str(v)].  An [int] prints in decimal with a leading minus sign when
    negative.  (CPython refuses to print an int of more than 4300 digits; a
    number read from a sheet is far below that, and the limit is not modelled
    for [str].) *)
Definition str (v : obj) : string :=
  match v with
  | None_ => "None"
  | Int z => NilZero.string_of_int (Z.to_int z)
  | Str s => s
  end.

(** Characters, as [int] classifies them: the digits 0-9, and the white space
    of CPython's [Py_ISSPACE] (tab, line feed, vertical tab, form feed,
    carriage return, space).  A byte above 127 is neither a digit nor white
    space here: Python's [int] also accepts the decimal digits and white space
    of other scripts, which this model rejects. *)
Definition is_digit (c : ascii) : bool :=
  let n := nat_of_ascii c in ((48 <=? n) && (n <=? 57))%nat.

Definition is_space (c : ascii) : bool :=
  let n := nat_of_ascii c in (((9 <=? n) && (n <=? 13)) || (n =? 32))%nat.

Definition digit_value (c : ascii) : Z := Z.of_nat (nat_of_ascii c - 48).

Fixpoint lstrip (cs : list ascii) : list ascii :=
  match cs with
  | c :: cs' => if is_space c then lstrip cs' else cs
  | [] => []
  end.

Definition strip (cs : list ascii) : list ascii :=
  rev (lstrip (rev (lstrip cs))).

(** CPython's limit on the number of digits of a decimal literal given to
    [int] ([sys.int_max_str_digits], since 3.11). *)
Definition int_max_str_digits : nat := 4300.

(** The digits of a decimal literal, read left to right: [acc] is the value
    so far, [ndigits] the digits seen, [prev_us] whether the previous
    character was an underscore (or there was none yet: a literal neither
    starts with an underscore nor is empty).  An underscore is allowed only
    between two digits. *)
Fixpoint scan_digits (cs : list ascii) (acc : Z) (ndigits : nat) (prev_us : bool)
  : option (Z * nat) :=
  match cs with
  | [] => if prev_us then None else Some (acc, ndigits)
  | c :: cs' =>
      if is_digit c then scan_digits cs' (10 * acc + digit_value c) (S ndigits) false
      else if Ascii.eqb c "_" then
             if prev_us then None else scan_digits cs' acc ndigits true
           else None
  end.

Definition int_of_digits (cs : list ascii) : result Z :=
  match scan_digits cs 0 0%nat true with
  | Some (z, n) => if (n <=? int_max_str_digits)%nat then Ok z else Raise ValueError
  | None => Raise ValueError
  end.

(** [int(s)] for a string, base ten: surrounding white space, an optional
    sign, then digits. *)
Definition int_of_string (s : string) : result Z :=
  match strip (list_ascii_of_string s) with
  | c :: cs =>
      if Ascii.eqb c "+" then int_of_digits cs
      else if Ascii.eqb c "-" then result_bind (int_of_digits cs) (fun z => Ok (- z))
      else int_of_digits (c :: cs)
  | [] => Raise ValueError
  end.

(** [int(v)]. *)
Definition int (v : obj) : result Z :=
  match v with
  | None_ => Raise TypeError
  | Int z => Ok z
  | Str s => int_of_string s
  end.

(** [s.split(".")[0]]: the text before the first full stop, all of [s] when
    it has none. *)
Fixpoint split_dot_0 (s : string) : string :=
  match s with
  | EmptyString => EmptyString
  | String c s' => if Ascii.eqb c "." then EmptyString else String c (split_dot_0 s')
  end.

(** [re.sub("[^0-9]", "", s)]: every character outside 0-9 is deleted. *)
Fixpoint sub_non_digits (s : string) : string :=
  match s with
  | EmptyString => EmptyString
  | String c s' => if is_digit c then String c (sub_non_digits s') else sub_non_digits s'
  end.

(** [v == w]: values of different types are never equal. *)
Definition eqb (v w : obj) : bool :=
  match v, w with
  | None_, None_ => true
  | Int a, Int b => a =? b
  | Str s, Str t => String.eqb s t
  | _, _ => false
  end.

(** [x in l]: some element of [l] is equal to [x]. *)
Definition contains (x : obj) (l : list obj) : bool :=
  existsb (fun y => eqb y x) l.

(** [l.remove(x)] deletes the first element equal to [x]; [None] when there
    is none (Python raises [ValueError]). *)
Fixpoint remove (x : obj) (l : list obj) : option (list obj) :=
  match l with
  | [] => None
  | y :: l' =>
      if eqb y x then Some l'
      else match remove x l' with
           | Some r => Some (y :: r)
           | None => None
           end
  end.

(** A [dict] with string keys, and [d.get(key)]: [None] for an absent key. *)
Definition dict : Type := list (string * obj).

Fixpoint get (key : string) (d : dict) : obj :=
  match d with
  | [] => None_
  | (k, v) :: d' => if String.eqb k key then v else get key d'
  end.

(** [len(l)]. *)
Definition len {A} (l : list A) : Z := Z.of_nat (List.length l).

(** [list(range(start, stop, step))]: CPython computes the length first and
    then the elements [start + k * step]. *)
Definition range_len (start stop step : Z) : Z :=
  if 0 <? step then
    if start <? stop then (stop - start - 1) / step + 1 else 0
  else
    if stop <? start then (start - stop - 1) / (- step) + 1 else 0.

Definition range (start stop step : Z) : result (list Z) :=
  if step =? 0 then Raise ValueError
  else Ok (map (fun k => start + Z.of_nat k * step)
               (seq 0 (Z.to_nat (range_len start stop step)))).

(** [l[i:j]]: a negative index counts from the end, and both are clamped to
    the list. *)
Definition slice_index {A} (l : list A) (k : Z) : Z :=
  let k' := if k <? 0 then k + len l else k in
  Z.max 0 (Z.min (len l) k').

Definition slice {A} (l : list A) (i j : Z) : list A :=
  let lo := slice_index l i in
  let hi := slice_index l j in
  firstn (Z.to_nat (hi - lo)) (skipn (Z.to_nat lo) l).

End Py.

(** ** The mutable list [offer_ids] *)

(** A computation that reads and updates the list object [offer_ids] and may
    raise.  The list is returned in both cases: what was removed before a
    raise stays removed. *)
Definition M (A : Type) : Type := list Py.obj -> result A * list Py.obj.

Definition ret {A} (a : A) : M A := fun offer_ids => (Ok a, offer_ids).

Definition bind {A B} (m : M A) (k : A -> M B) : M B :=
  fun offer_ids =>
    match m offer_ids with
    | (Ok a, offer_ids') => k a offer_ids'
    | (Raise e, offer_ids') => (Raise e, offer_ids')
    end.

Definition lift {A} (r : result A) : M A := fun offer_ids => (r, offer_ids).

(** The current contents of [offer_ids]. *)
Definition read : M (list Py.obj) := fun offer_ids => (Ok offer_ids, offer_ids).

(** [offer_ids.remove(x)]. *)
Definition offer_ids_remove (x : Py.obj) : M unit :=
  fun offer_ids =>
    match Py.remove x offer_ids with
    | Some offer_ids' => (Ok tt, offer_ids')
    | None => (Raise ValueError, offer_ids)
    end.

Declare Scope M_scope.
Delimit Scope M_scope with M.
Notation "x <- m ;; k" := (bind m (fun x => k))
  (at level 100, m at next level, right associativity) : M_scope.
Notation "m ;; k" := (bind m (fun _ => k))
  (at level 100, right associativity) : M_scope.

(** ** Reconciliation *)

(** Lines 208-214 of [create_stocks]: the stock of one supplier record. *)
Definition stock_of (watch : Py.dict) : result Z :=
  let count := Py.str (Py.get "Количество" watch) in
  if String.eqb count ">10" then Ok 100
  else if String.eqb count "1" then Ok 0
  else Py.int (Py.get "Количество" watch).

(** The dictionary appended for a catalog identifier. *)
Definition stock_entry (offer_id : Py.obj) (stock : Z) : Py.dict :=
  [("offer_id", offer_id); ("stock", Py.Int stock)].

(** The first loop of [create_stocks] (lines 206-216); [stocks] is the list
    built so far. *)
Fixpoint create_stocks_feed (watch_remnants : list Py.dict) (stocks : list Py.dict)
  : M (list Py.dict) :=
  match watch_remnants with
  | [] => ret stocks
  | watch :: rest =>
      (offer_ids <- read ;;
       if Py.contains (Py.Str (Py.str (Py.get "Код" watch))) offer_ids then
         stock <- lift (stock_of watch) ;;
         let stocks := stocks ++ [stock_entry (Py.Str (Py.str (Py.get "Код" watch))) stock] in
         offer_ids_remove (Py.Str (Py.str (Py.get "Код" watch))) ;;
         create_stocks_feed rest stocks
       else create_stocks_feed rest stocks)%M
  end.

(** [create_stocks(watch_remnants, offer_ids)], with [offer_ids] the state. *)
Definition create_stocks (watch_remnants : list Py.dict) : M (list Py.dict) :=
  (stocks <- create_stocks_feed watch_remnants [] ;;
   offer_ids <- read ;;
   ret (stocks ++ map (fun offer_id => stock_entry offer_id 0) offer_ids))%M.

(** [price_conversion(price)]; a value that is not a [str] has no [split]. *)
Definition price_conversion (price : Py.obj) : result string :=
  match price with
  | Py.Str s => Ok (Py.sub_non_digits (Py.split_dot_0 s))
  | _ => Raise AttributeError
  end.

Definition price_entry (offer_id : Py.obj) (price : string) : Py.dict :=
  [("auto_action_enabled", Py.Str "UNKNOWN");
   ("currency_code", Py.Str "RUB");
   ("offer_id", offer_id);
   ("old_price", Py.Str "0");
   ("price", Py.Str price)].

(** The loop of [create_prices] (lines 244-253). *)
Fixpoint create_prices_feed (watch_remnants : list Py.dict) (prices : list Py.dict)
  : M (list Py.dict) :=
  match watch_remnants with
  | [] => ret prices
  | watch :: rest =>
      (offer_ids <- read ;;
       if Py.contains (Py.Str (Py.str (Py.get "Код" watch))) offer_ids then
         price <- lift (price_conversion (Py.get "Цена" watch)) ;;
         create_prices_feed rest
           (prices ++ [price_entry (Py.Str (Py.str (Py.get "Код" watch))) price])
       else create_prices_feed rest prices)%M
  end.

(** [create_prices(watch_remnants, offer_ids)]. *)
Definition create_prices (watch_remnants : list Py.dict) : M (list Py.dict) :=
  create_prices_feed watch_remnants [].

(** ** Batching *)

(** [list(divide(lst, n))]: what the generator yields, or the exception its
    first step raises. *)
Definition divide {A} (lst : list A) (n : Z) : result (list (list A)) :=
  result_bind (Py.range 0 (Py.len lst) n)
    (fun indices => Ok (map (fun i => Py.slice lst i (i + n)) indices)).

(** ** Pagination *)

(** The [result] object of a page of the product list. *)
Record page : Type := Page {
  page_items : list Py.dict;
  page_total : Z;
  page_last_id : string
}.

(** How a run of the pagination loop ends within a number of requests. *)
Inductive outcome (A : Type) : Type :=
| Returned (a : A)
| Raised (e : exn)
| OutOfFuel.

Arguments Returned {A} a.
Arguments Raised {A} e.
Arguments OutOfFuel {A}.

Section Catalog.

(** The marketplace: its answer to the request number [calls] (from 0) made
    with cursor [last_id].  The credentials are fixed for a run. *)
Variable get_product_list : nat -> string -> result page.

(** The [while True] loop of [get_offer_ids] (lines 71-77), [fuel] requests
    at most, followed by lines 78-81. *)
Fixpoint get_offer_ids_loop (fuel calls : nat) (last_id : string)
  (product_list : list Py.dict) : outcome (list Py.obj) :=
  match fuel with
  | O => OutOfFuel
  | S fuel' =>
      match get_product_list calls last_id with
      | Raise e => Raised e
      | Ok some_prod =>
          let product_list := product_list ++ page_items some_prod in
          if page_total some_prod =? Py.len product_list
          then Returned (map (Py.get "offer_id") product_list)
          else get_offer_ids_loop fuel' (S calls) (page_last_id some_prod) product_list
      end
  end.

Definition get_offer_ids (fuel : nat) : outcome (list Py.obj) :=
  get_offer_ids_loop fuel 0%nat EmptyString [].

(** The loop without its exit test: the accumulated products and the cursor
    after [k] answered requests. *)
Fixpoint fetched (k : nat) : result (list Py.dict * string) :=
  match k with
  | O => Ok ([], EmptyString)
  | S k' =>
      result_bind (fetched k') (fun st =>
      result_bind (get_product_list k' (snd st)) (fun some_prod =>
      Ok (fst st ++ page_items some_prod, page_last_id some_prod)))
  end.

(** The exit test of line 76 after the [k]-th request ([k >= 1]). *)
Definition exits_at (k : nat) : bool :=
  match k with
  | O => false
  | S k' =>
      match fetched k' with
      | Ok st =>
          match get_product_list k' (snd st) with
          | Ok some_prod => page_total some_prod =? Py.len (fst st ++ page_items some_prod)
          | Raise _ => false
          end
      | Raise _ => false
      end
  end.

End Catalog.

(** ** The scheduled entry point *)

(** [for some in batches: call(some)]: the calls made, in order, and the
    exception that stopped them, if any. *)
Fixpoint for_each {A} (call : A -> result unit) (batches : list A)
  : list A * option exn :=
  match batches with
  | [] => ([], None)
  | b :: bs =>
      match call b with
      | Raise e => ([b], Some e)
      | Ok _ => let (sent, err) := for_each call bs in (b :: sent, err)
      end
  end.

(** What a run of [main] did: the batches given to [update_stocks] and to
    [update_price], the list [prices] when line 368 was reached, and the
    exception the [try] caught. *)
Record run : Type := Run {
  stock_requests : list (list Py.dict);
  prices : option (list Py.dict);
  price_requests : list (list Py.dict);
  caught : option exn
}.

Section Main.

(** The two submission endpoints: whether a request with the given batch
    succeeds. *)
Variable update_stocks : list Py.dict -> result unit.
Variable update_price : list Py.dict -> result unit.

(** Lines 363-370 of [main], from the results of [get_offer_ids] and
    [download_stock] (lines 361-362).  The one list [offer_ids] is given to
    [create_stocks] and then to [create_prices]. *)
Definition main (offer_ids : list Py.obj) (watch_remnants : list Py.dict) : run :=
  match create_stocks watch_remnants offer_ids with
  | (Raise e, _) => Run [] None [] (Some e)
  | (Ok stocks, offer_ids) =>
      match divide stocks 100 with
      | Raise e => Run [] None [] (Some e)
      | Ok stock_batches =>
          match for_each update_stocks stock_batches with
          | (sent, Some e) => Run sent None [] (Some e)
          | (sent, None) =>
              match create_prices watch_remnants offer_ids with
              | (Raise e, _) => Run sent None [] (Some e)
              | (Ok prices, _) =>
                  match divide prices 900 with
                  | Raise e => Run sent (Some prices) [] (Some e)
                  | Ok price_batches =>
                      let (sent_prices, err) := for_each update_price price_batches in
                      Run sent (Some prices) sent_prices err
                  end
              end
          end
      end
  end.

End Main.

(** ** Vocabulary of the statements *)

(** The [k]-th contiguous slice of [size] elements of a list. *)
Definition chunk_at {A} (lst : list A) (size k : nat) : list A :=
  firstn size (skipn (k * size) lst).

(** A non-empty string of the digits 0-9, and the number it writes. *)
Definition all_digits (s : string) : bool :=
  match list_ascii_of_string s with
  | [] => false
  | cs => forallb Py.is_digit cs
  end.

Definition decimal_value (s : string) : Z :=
  fold_left (fun acc c => 10 * acc + Py.digit_value c) (list_ascii_of_string s) 0.


(** The identifier a supplier record is matched by, as lines 207 and 245
    compute it. *)
Definition code_of (watch : Py.dict) : Py.obj := Py.Str (Py.str (Py.get "Код" watch)).

(** [l1] is [l2] with some elements left out, the others in their order. *)
Inductive subseq {A : Type} : list A -> list A -> Prop :=
| subseq_nil : subseq [] []
| subseq_skip x l1 l2 : subseq l1 l2 -> subseq l1 (x :: l2)
| subseq_keep x l1 l2 : subseq l1 l2 -> subseq (x :: l1) (x :: l2).

(** The quantity of a supplier record as the data model has it: the text
    ">10", or a number: a string of digits short enough for [int] ("1" is
    one), or an integer cell. *)
Definition quantity_ok (watch : Py.dict) : bool :=
  match Py.get "Количество" watch with
  | Py.Int _ => true
  | Py.Str s =>
      String.eqb s ">10"
      || (all_digits s && (String.length s <=? Py.int_max_str_digits)%nat)
  | Py.None_ => false
  end.

(** [u] is the stock update of the supplier record [watch]. *)
Definition covered_entry (watch u : Py.dict) : Prop :=
  exists v, stock_of watch = Ok v /\ u = stock_entry (code_of watch) v.

(** [p] is the price update of the supplier record [watch]. *)
Definition price_update_of (watch p : Py.dict) : Prop :=
  exists price,
    price_conversion (Py.get "Цена" watch) = Ok price
    /\ p = price_entry (code_of watch) price.

(** The catalog identifiers no record of the feed carries, in catalog order. *)
Definition not_in_feed (watch_remnants : list Py.dict) (offer_ids : list Py.obj)
  : list Py.obj :=
  filter (fun offer_id => negb (Py.contains offer_id (map code_of watch_remnants)))
         offer_ids.

(** A run of [get_offer_ids] that neither returns nor raises, however many
    requests it is given. *)
Definition never_ends (get_product_list : nat -> string -> result page) : Prop :=
  forall fuel, get_offer_ids get_product_list fuel = OutOfFuel.

(** A marketplace that answers every request with an empty page and a total
    of one product. *)
Definition stalled_server (calls : nat) (last_id : string) : result page :=
  Ok (Page [] 1 last_id).

(** ** The on-demand entry points *)

Section Upload.

Variable get_product_list : nat -> string -> result page.
Variable update_price : list Py.dict -> result unit.
Variable update_stocks : list Py.dict -> result unit.

(** The body of [upload_prices] (lines 321-325), [fuel] page requests at
    most: how it ends, and the batches given to [update_price].  The
    function is declared [async] and awaits nothing: its body runs from start
    to end once the coroutine is run. *)
Definition upload_prices (fuel : nat) (watch_remnants : list Py.dict)
  : outcome (list Py.dict) * list (list Py.dict) :=
  match get_offer_ids get_product_list fuel with
  | OutOfFuel => (OutOfFuel, [])
  | Raised e => (Raised e, [])
  | Returned offer_ids =>
      match create_prices watch_remnants offer_ids with
      | (Raise e, _) => (Raised e, [])
      | (Ok prices, _) =>
          match divide prices 1000 with
          | Raise e => (Raised e, [])
          | Ok price_batches =>
              match for_each update_price price_batches with
              | (sent, Some e) => (Raised e, sent)
              | (sent, None) => (Returned prices, sent)
              end
          end
      end
  end.

(** The body of [upload_stocks] (lines 348-353): how it ends (the pair
    [not_empty, stocks] when it returns), and the batches given to
    [update_stocks]. *)
Definition upload_stocks (fuel : nat) (watch_remnants : list Py.dict)
  : outcome (list Py.dict * list Py.dict) * list (list Py.dict) :=
  match get_offer_ids get_product_list fuel with
  | OutOfFuel => (OutOfFuel, [])
  | Raised e => (Raised e, [])
  | Returned offer_ids =>
      match create_stocks watch_remnants offer_ids with
      | (Raise e, _) => (Raised e, [])
      | (Ok stocks, _) =>
          match divide stocks 100 with
          | Raise e => (Raised e, [])
          | Ok stock_batches =>
              match for_each update_stocks stock_batches with
              | (sent, Some e) => (Raised e, sent)
              | (sent, None) =>
                  let not_empty :=
                    filter (fun stock => negb (Py.eqb (Py.get "stock" stock) (Py.Int 0)))
                           stocks in
                  (Returned (not_empty, stocks), sent)
              end
          end
      end
  end.

End Upload.

(** ** Further vocabulary *)

(** A quantity that is the text ">10", a string of digits short enough for
    [int], or an integer cell that is not negative. *)
Definition quantity_nonneg (watch : Py.dict) : bool :=
  match Py.get "Количество" watch with
  | Py.Int z => 0 <=? z
  | Py.Str s =>
      String.eqb s ">10"
      || (all_digits s && (String.length s <=? Py.int_max_str_digits)%nat)
  | Py.None_ => false
  end.

(** The price of the record is text. *)
Definition price_is_text (watch : Py.dict) : bool :=
  match Py.get "Цена" watch with
  | Py.Str _ => true
  | _ => false
  end.

(** The first record of the feed that carries the identifier [offer_id]. *)
Definition first_record (offer_id : Py.obj) (watch_remnants : list Py.dict)
  : option Py.dict :=
  find (fun watch => Py.eqb (code_of watch) offer_id) watch_remnants.

(** Every character of the string is a digit 0-9 (the string may be empty). *)
Definition only_digits (s : string) : bool :=
  forallb Py.is_digit (list_ascii_of_string s).

(** [l1] is the beginning of [l2]. *)
Definition prefix {A} (l1 l2 : list A) : Prop := exists rest, l2 = l1 ++ rest.

(** ** Vocabulary of integer literals and printable cells *)

(** [str(v)] returns: CPython (3.11 and later) refuses to print an integer
    of more than [int_max_str_digits] digits and raises [ValueError], a limit
    that [Py.str] does not model.  The statements about a return of
    [create_stocks] or [create_prices], and about the exceptions they raise,
    are made for feeds whose cells are printable. *)
Definition printable (v : Py.obj) : bool :=
  match v with
  | Py.Int z => Z.abs z <? 10 ^ Z.of_nat Py.int_max_str_digits
  | _ => true
  end.









(** * Properties *)

(** ** The builtins on examples *)

Example str_examples :
  Py.str (Py.Int 1) = "1" /\ Py.str (Py.Int (-15)) = "-15" /\ Py.str Py.None_ = "None".
Proof. repeat split. Qed.

Example int_examples :
  Py.int (Py.Str "7") = Ok 7 /\ Py.int (Py.Str " -1_0 ") = Ok (-10) /\
  Py.int (Py.Str "3.0") = Raise ValueError /\ Py.int (Py.Str "7_") = Raise ValueError /\
  Py.int (Py.Str "_7") = Raise ValueError /\ Py.int (Py.Str "- 7") = Raise ValueError /\
  Py.int (Py.Str EmptyString) = Raise ValueError /\ Py.int (Py.Str "007") = Ok 7.
Proof. repeat split. Qed.

Example range_examples :
  Py.range 0 5 2 = Ok [0; 2; 4] /\ Py.range 0 5 (-1) = Ok [] /\
  Py.range 5 0 (-2) = Ok [5; 3; 1] /\ Py.range 0 0 0 = Raise ValueError.
Proof. repeat split. Qed.

Example slice_examples :
  Py.slice [1; 2; 3; 4; 5] 4 6 = [5] /\ Py.slice [1; 2; 3; 4; 5] (-2) 9 = [4; 5] /\
  Py.slice [1; 2; 3; 4; 5] 3 1 = [].
Proof. repeat split. Qed.

(** The examples of the docstrings. *)
Example create_stocks_docstring :
  create_stocks [[("Код", Py.Str "A123"); ("Количество", Py.Str ">10")]]
                [Py.Str "A123"; Py.Str "B456"]
  = (Ok [stock_entry (Py.Str "A123") 100; stock_entry (Py.Str "B456") 0], [Py.Str "B456"]).
Proof. reflexivity. Qed.

Example create_prices_docstring :
  create_prices [[("Код", Py.Str "A123"); ("Цена", Py.Str "5990.00 руб.")]] [Py.Str "A123"]
  = (Ok [price_entry (Py.Str "A123") "5990"], [Py.Str "A123"]).
Proof. reflexivity. Qed.

(** ** Batching: [divide] *)

Section Divide.

Context {A : Type}.
Implicit Types (lst : list A) (n : Z) (k m size : nat).

Lemma firstn_then_more lst : forall a b,
  firstn a lst ++ firstn b (skipn a lst) = firstn (a + b) lst.
Proof.
  induction lst as [|x lst IH]; intros a b.
  - now rewrite skipn_nil, !firstn_nil.
  - destruct a as [|a]; simpl; [reflexivity|].
    now rewrite IH.
Qed.

Lemma concat_chunks lst size m :
  concat (map (chunk_at lst size) (seq 0 m)) = firstn (m * size) lst.
Proof.
  induction m as [|m IH].
  - reflexivity.
  - rewrite seq_S, map_app, concat_app, IH. simpl.
    rewrite app_nil_r. unfold chunk_at.
    rewrite firstn_then_more. f_equal. lia.
Qed.

Lemma length_chunk_at lst size k :
  length (chunk_at lst size k) = Nat.min size (length lst - k * size).
Proof. unfold chunk_at. now rewrite length_firstn, length_skipn. Qed.

(** In [divide] every slice starts inside the list, where Python's slice is
    [firstn] after [skipn]. *)
Lemma slice_chunk lst n k :
  0 < n -> (k * Z.to_nat n <= length lst)%nat ->
  Py.slice lst (0 + Z.of_nat k * n) (0 + Z.of_nat k * n + n)
  = chunk_at lst (Z.to_nat n) k.
Proof.
  intros Hn Hk. unfold Py.slice, Py.slice_index, Py.len, chunk_at.
  assert (Hi : 0 <= Z.of_nat k * n) by nia.
  assert (Hle : Z.of_nat k * n <= Z.of_nat (length lst)) by nia.
  destruct (Z.ltb_spec (0 + Z.of_nat k * n) 0) as [?|_]; [lia|].
  destruct (Z.ltb_spec (0 + Z.of_nat k * n + n) 0) as [?|_]; [lia|].
  replace (Z.to_nat (Z.max 0 (Z.min (Z.of_nat (length lst)) (0 + Z.of_nat k * n))))
    with (k * Z.to_nat n)%nat by nia.
  set (rest := skipn (k * Z.to_nat n) lst).
  assert (Hrest : length rest = (length lst - k * Z.to_nat n)%nat)
    by (unfold rest; apply length_skipn).
  destruct (Z.le_gt_cases (0 + Z.of_nat k * n + n) (Z.of_nat (length lst))) as [Hfull|Hshort].
  - f_equal. nia.
  - rewrite !firstn_all2; [reflexivity | nia | nia].
Qed.

Lemma range_len_pos lst n :
  0 < n ->
  let m := Z.to_nat (Py.range_len 0 (Py.len lst) n) in
  (length lst <= m * Z.to_nat n)%nat /\
  (forall k, (k < m)%nat -> (k * Z.to_nat n < length lst)%nat).
Proof.
  intros Hn. unfold Py.range_len, Py.len.
  destruct (Z.ltb_spec 0 n) as [_|?]; [|lia].
  destruct (Z.ltb_spec 0 (Z.of_nat (length lst))) as [Hpos|Hzero]; simpl.
  - set (q := (Z.of_nat (length lst) - 0 - 1) / n).
    assert (Hq : 0 <= q) by (apply Z.div_pos; lia).
    pose proof (Z.mul_div_le (Z.of_nat (length lst) - 0 - 1) n Hn) as Hlo.
    pose proof (Z.mul_succ_div_gt (Z.of_nat (length lst) - 0 - 1) n Hn) as Hhi.
    fold q in Hlo, Hhi. split.
    + nia.
    + intros k Hk. nia.
  - split; [lia | intros k Hk; lia].
Qed.

(** [divide] with a positive size is the list of the slices [chunk_at]. *)
Lemma divide_pos lst n :
  0 < n ->
  divide lst n
  = Ok (map (chunk_at lst (Z.to_nat n))
            (seq 0 (Z.to_nat (Py.range_len 0 (Py.len lst) n)))).
Proof.
  intros Hn. unfold divide, Py.range.
  destruct (Z.eqb_spec n 0) as [?|_]; [lia|]. simpl.
  rewrite map_map. f_equal. apply map_ext_in. intros k Hk.
  apply in_seq in Hk. apply slice_chunk; [assumption|].
  destruct (range_len_pos lst n Hn) as [_ Hlt].
  specialize (Hlt k). lia.
Qed.

End Divide.

(** C5.  For a size of at least 1, [divide] returns finitely many chunks:
    chunk [k] is the contiguous slice of [n] elements that starts at index
    [k * n]; every chunk but the last has exactly [n] elements and the last
    has between 1 and [n]; the chunks concatenated in order are the list.
    And [divide [1;2;3;4;5] 2 = [[1;2];[3;4];[5]]]. *)
Theorem divide_chunks {A : Type} (lst : list A) (n : Z) (Hn : 1 <= n) :
  (exists chunks,
     divide lst n = Ok chunks
     /\ concat chunks = lst
     /\ (forall k c, nth_error chunks k = Some c ->
           c = firstn (Z.to_nat n) (skipn (k * Z.to_nat n) lst)
           /\ 1 <= Py.len c <= n
           /\ ((S k < length chunks)%nat -> Py.len c = n)))
  /\ divide [1; 2; 3; 4; 5] 2 = Ok [[1; 2]; [3; 4]; [5]].
Proof.
  split; [|reflexivity].
  assert (Hpos : 0 < n) by lia.
  destruct (range_len_pos lst n Hpos) as [Hcover Hstart].
  set (m := Z.to_nat (Py.range_len 0 (Py.len lst) n)) in *.
  exists (map (chunk_at lst (Z.to_nat n)) (seq 0 m)).
  split; [apply divide_pos; assumption|].
  split.
  - rewrite concat_chunks. apply firstn_all2. lia.
  - intros k c Hc.
    rewrite nth_error_map, nth_error_seq in Hc.
    destruct (Nat.ltb_spec k m) as [Hk|Hk]; [|discriminate].
    simpl in Hc. injection Hc as <-.
    split; [reflexivity|].
    pose proof (Hstart k Hk) as Hin.
    unfold Py.len. rewrite length_chunk_at.
    split; [lia|].
    rewrite length_map, length_seq. intros Hnext.
    pose proof (Hstart (S k) Hnext) as Hin'. lia.
Qed.

(** The theorem at the list [[1;2;3]] and size 2. *)
Lemma divide_chunks_witness :
  1 <= 2 /\
  exists chunks, divide [1; 2; 3] 2 = Ok chunks /\ concat chunks = [1; 2; 3].
Proof.
  split; [lia|].
  destruct (proj1 (divide_chunks [1; 2; 3] 2 ltac:(lia))) as [chunks [Hd [Hc _]]].
  exists chunks. split; assumption.
Defined.

(** C6, as the code has it.  A size of 0 raises [ValueError] (from [range],
    when the generator is first advanced) for every list; a negative size
    raises nothing: [range] is empty and [divide] yields no chunk. *)
Theorem divide_nonpositive {A : Type} (x : list A) (p : positive) :
  divide x 0 = Raise ValueError /\ divide x (Z.neg p) = Ok [].
Proof.
  split; [reflexivity|].
  unfold divide, Py.range, Py.range_len, Py.len. simpl.
  destruct (Z.ltb_spec (Z.neg p) 0) as [_|?]; [|lia].
  destruct (Z.ltb_spec (Z.of_nat (length x)) 0) as [?|_]; [lia|].
  reflexivity.
Qed.

(** C6 fails for a negative size: no exception, no chunk. *)
Lemma divide_negative_size_returns :
  divide [1; 2] (-1) = Ok [] /\ divide [1; 2] 0 = Raise ValueError.
Proof. split; reflexivity. Qed.

(** ** Price normalisation: [price_conversion] *)

Lemma split_dot_0_prefix (s : string) :
  exists rest,
    s = (Py.split_dot_0 s ++ rest)%string
    /\ (rest = EmptyString \/ exists r, rest = String "." r)
    /\ forall c, In c (list_ascii_of_string (Py.split_dot_0 s)) -> c <> "."%char.
Proof.
  induction s as [|c s (rest & Hs & Hrest & Hno)]; simpl.
  - exists EmptyString. repeat split; [now left | intros c []].
  - destruct (Ascii.eqb_spec c ".") as [->|Hc].
    + exists (String "." s). repeat split; [right; now exists s | intros c []].
    + exists rest. simpl. split; [now rewrite <- Hs|]. split; [assumption|].
      intros c' [<-|Hin]; [assumption | now apply Hno].
Qed.

Lemma sub_non_digits_filter (s : string) :
  Py.sub_non_digits s
  = string_of_list_ascii (filter Py.is_digit (list_ascii_of_string s)).
Proof.
  induction s as [|c s IH]; simpl; [reflexivity|].
  destruct (Py.is_digit c); simpl; now rewrite IH.
Qed.

(** C3, as the code has it.  [price_conversion] cuts its input at the first
    full stop, keeps the part before it and deletes every character of that
    part that is not a digit 0-9; the two prices of the specification give
    5990 and 199.  It never raises on a string: when no digit is left the
    result is the empty string. *)
Theorem price_conversion_digits (raw : string) :
  (exists integer_part rest,
     raw = (integer_part ++ rest)%string
     /\ (rest = EmptyString \/ exists r, rest = String "." r)
     /\ (forall c, In c (list_ascii_of_string integer_part) -> c <> "."%char)
     /\ price_conversion (Py.Str raw)
        = Ok (string_of_list_ascii
                (filter Py.is_digit (list_ascii_of_string integer_part)))
     /\ ((forall c, In c (list_ascii_of_string integer_part) -> Py.is_digit c = false)
         <-> price_conversion (Py.Str raw) = Ok EmptyString))
  /\ price_conversion (Py.Str "5'990.00 руб.") = Ok "5990"
  /\ price_conversion (Py.Str "199 руб.") = Ok "199".
Proof.
  split; [|split; reflexivity].
  destruct (split_dot_0_prefix raw) as (rest & Hs & Hrest & Hno).
  exists (Py.split_dot_0 raw), rest.
  repeat (split; [assumption|]).
  unfold price_conversion. rewrite sub_non_digits_filter.
  split; [reflexivity|].
  generalize (list_ascii_of_string (Py.split_dot_0 raw)). intros cs. split.
  - intros Hnone. f_equal.
    induction cs as [|c cs IH]; simpl; [reflexivity|].
    rewrite (Hnone c (or_introl eq_refl)). apply IH.
    intros c' Hc'. apply Hnone. now right.
  - intros Hempty c Hin.
    destruct (Py.is_digit c) eqn:Hd; [|reflexivity].
    assert (Hf : In c (filter Py.is_digit cs)) by (apply filter_In; now split).
    injection Hempty as Hempty.
    destruct (filter Py.is_digit cs); [destruct Hf | discriminate].
Qed.

(** C3 fails where no digit is left: the empty string is returned, nothing
    is raised. *)
Lemma price_conversion_no_digit_returns :
  Py.sub_non_digits (Py.split_dot_0 "руб.") = EmptyString
  /\ price_conversion (Py.Str "руб.") = Ok EmptyString.
Proof. split; reflexivity. Qed.

(** ** Quantities: [int] on strings and [stock_of] *)

Lemma digit_not_space c : Py.is_digit c = true -> Py.is_space c = false.
Proof. unfold Py.is_digit, Py.is_space. lia. Qed.

Lemma digit_not_sign c :
  Py.is_digit c = true -> Ascii.eqb c "+" = false /\ Ascii.eqb c "-" = false.
Proof.
  intros Hd. split.
  - destruct (Ascii.eqb_spec c "+") as [->|]; [discriminate | reflexivity].
  - destruct (Ascii.eqb_spec c "-") as [->|]; [discriminate | reflexivity].
Qed.

Lemma lstrip_head c cs : Py.is_space c = false -> Py.lstrip (c :: cs) = c :: cs.
Proof. intros H. simpl. now rewrite H. Qed.

Lemma strip_digits cs :
  forallb Py.is_digit cs = true -> Py.strip cs = cs.
Proof.
  intros Hall. unfold Py.strip.
  assert (Hl : forall l, forallb Py.is_digit l = true -> Py.lstrip l = l).
  { intros [|c l] H; [reflexivity|]. simpl in H. apply andb_prop in H as [Hc _].
    apply lstrip_head, digit_not_space, Hc. }
  rewrite (Hl cs Hall), Hl, rev_involutive; [reflexivity|].
  rewrite forallb_forall in *. intros c Hc. apply Hall. now apply in_rev.
Qed.

Lemma scan_digits_all_digits cs :
  forallb Py.is_digit cs = true ->
  forall acc n us, cs <> [] \/ us = false ->
    Py.scan_digits cs acc n us
    = Some (fold_left (fun a c => 10 * a + Py.digit_value c) cs acc, (n + length cs)%nat).
Proof.
  induction cs as [|c cs IH]; intros Hall acc n us Hne; simpl.
  - destruct Hne as [Hne| ->]; [contradiction|]. now rewrite Nat.add_0_r.
  - simpl in Hall. apply andb_prop in Hall as [Hc Hall].
    rewrite Hc, (IH Hall) by now right. do 2 f_equal. lia.
Qed.

Lemma length_list_ascii s : length (list_ascii_of_string s) = String.length s.
Proof. induction s as [|c s IH]; simpl; [reflexivity | now rewrite IH]. Qed.

(** A string of digits, not longer than [int] accepts, reads as the number
    it writes. *)
Lemma int_of_string_digits s :
  all_digits s = true -> (String.length s <= Py.int_max_str_digits)%nat ->
  Py.int_of_string s = Ok (decimal_value s).
Proof.
  unfold all_digits, decimal_value, Py.int_of_string.
  rewrite <- length_list_ascii.
  destruct (list_ascii_of_string s) as [|c cs] eqn:Hcs; [discriminate|].
  intros Hall Hlen. rewrite (strip_digits _ Hall).
  pose proof Hall as Hall'. simpl in Hall'. apply andb_prop in Hall' as [Hc _].
  destruct (digit_not_sign c Hc) as [-> ->].
  unfold Py.int_of_digits.
  rewrite (scan_digits_all_digits _ Hall) by (left; discriminate).
  destruct (Nat.leb_spec (0 + length (c :: cs)) Py.int_max_str_digits) as [_|Hgt].
  - reflexivity.
  - simpl in Hgt, Hlen. lia.
Qed.





Lemma contains_remove x l :
  Py.contains x l = true -> exists l', Py.remove x l = Some l'.
Proof.
  induction l as [|y l IH]; simpl; [discriminate|].
  destruct (Py.eqb y x); [now eexists|].
  simpl. intros H. destruct (IH H) as [l' ->]. now eexists.
Qed.

(** ** Integer literals: what [int] reads *)


















(** One iteration of the first loop of [create_stocks]. *)
Lemma create_stocks_feed_cons watch rest stocks offer_ids :
  create_stocks_feed (watch :: rest) stocks offer_ids
  = if Py.contains (code_of watch) offer_ids then
      match stock_of watch with
      | Ok v =>
          match Py.remove (code_of watch) offer_ids with
          | Some offer_ids' =>
              create_stocks_feed rest (stocks ++ [stock_entry (code_of watch) v]) offer_ids'
          | None => (Raise ValueError, offer_ids)
          end
      | Raise e => (Raise e, offer_ids)
      end
    else create_stocks_feed rest stocks offer_ids.
Proof.
  unfold code_of. simpl. unfold bind at 1, read at 1.
  destruct (Py.contains _ offer_ids); [|reflexivity].
  unfold bind at 1, lift at 1. destruct (stock_of watch) as [v|e]; [|reflexivity].
  unfold bind at 1, offer_ids_remove at 1.
  now destruct (Py.remove _ offer_ids).
Qed.



(** ** Lists of Python values *)

Lemma eqb_eq v w : Py.eqb v w = true <-> v = w.
Proof.
  destruct v as [|a|s], w as [|b|t]; simpl; split; intros H;
    try discriminate; try reflexivity.
  - apply Z.eqb_eq in H. now subst.
  - injection H as ->. apply Z.eqb_refl.
  - apply String.eqb_eq in H. now subst.
  - injection H as ->. apply String.eqb_refl.
Qed.

Lemma eqb_sym v w : Py.eqb v w = Py.eqb w v.
Proof.
  destruct (Py.eqb v w) eqn:H1, (Py.eqb w v) eqn:H2; try reflexivity.
  - apply eqb_eq in H1. subst. rewrite (proj2 (eqb_eq w w) eq_refl) in H2. discriminate.
  - apply eqb_eq in H2. subst. rewrite (proj2 (eqb_eq v v) eq_refl) in H1. discriminate.
Qed.

Lemma contains_In x l : Py.contains x l = true <-> In x l.
Proof.
  unfold Py.contains. rewrite existsb_exists. split.
  - intros (y & Hy & Heq). apply eqb_eq in Heq. now subst.
  - intros Hx. exists x. split; [assumption | now apply eqb_eq].
Qed.

Lemma contains_cons x y l : Py.contains x (y :: l) = Py.eqb y x || Py.contains x l.
Proof. reflexivity. Qed.

Lemma contains_false_In x l : Py.contains x l = false <-> ~ In x l.
Proof.
  rewrite <- contains_In. destruct (Py.contains x l); split; intros H;
    congruence.
Qed.

Lemma subseq_refl {A} (l : list A) : subseq l l.
Proof. induction l; constructor; assumption. Qed.

Lemma subseq_trans {A} (l1 l2 l3 : list A) :
  subseq l1 l2 -> subseq l2 l3 -> subseq l1 l3.
Proof.
  intros H12 H23. revert l1 H12.
  induction H23 as [|x l2 l3 _ IH|x l2 l3 _ IH]; intros l1 H12.
  - assumption.
  - constructor. now apply IH.
  - inversion H12; subst; constructor; now apply IH.
Qed.

Lemma subseq_In {A} (l1 l2 : list A) x : subseq l1 l2 -> In x l1 -> In x l2.
Proof.
  induction 1 as [|y l1 l2 _ IH|y l1 l2 _ IH]; simpl; intros Hx.
  - assumption.
  - right. now apply IH.
  - destruct Hx as [->|Hx]; [now left | right; now apply IH].
Qed.

Lemma filter_all {A} (f : A -> bool) l :
  (forall x, In x l -> f x = true) -> filter f l = l.
Proof.
  induction l as [|y l IH]; simpl; intros H; [reflexivity|].
  rewrite (H y (or_introl eq_refl)). f_equal. apply IH. intros x Hx. apply H. now right.
Qed.

Lemma filter_twice {A} (f g : A -> bool) l :
  filter f (filter g l) = filter (fun x => g x && f x) l.
Proof.
  induction l as [|y l IH]; simpl; [reflexivity|].
  destruct (g y); simpl; [destruct (f y)|]; now rewrite IH.
Qed.

Lemma subseq_filter {A} (f : A -> bool) l : subseq (filter f l) l.
Proof. induction l as [|y l IH]; simpl; [|destruct (f y)]; constructor; assumption. Qed.

Lemma remove_spec x l l' :
  Py.remove x l = Some l' -> Permutation l (x :: l') /\ subseq l' l.
Proof.
  revert l'. induction l as [|y l IH]; simpl; intros l' H; [discriminate|].
  destruct (Py.eqb y x) eqn:Hy.
  - apply eqb_eq in Hy. injection H as <-. subst y. split.
    + reflexivity.
    + constructor. apply subseq_refl.
  - destruct (Py.remove x l) as [r|]; [|discriminate]. injection H as <-.
    destruct (IH r eq_refl) as [Hp Hs]. split.
    + rewrite Hp. apply perm_swap.
    + now constructor.
Qed.

(** In a duplicate-free list, [remove] deletes every element equal to [x]. *)
Lemma remove_NoDup x l l' :
  NoDup l -> Py.remove x l = Some l' ->
  l' = filter (fun y => negb (Py.eqb y x)) l.
Proof.
  intros Hnd. revert l'. induction Hnd as [|y l Hy Hnd IH]; simpl; intros l' H;
    [discriminate|].
  destruct (Py.eqb y x) eqn:Hyx; simpl.
  - apply eqb_eq in Hyx. injection H as <-. subst y. symmetry. apply filter_all.
    intros z Hz. destruct (Py.eqb z x) eqn:Hzx; [|reflexivity].
    apply eqb_eq in Hzx. now subst.
  - destruct (Py.remove x l) as [r|]; [|discriminate]. injection H as <-.
    now rewrite (IH r eq_refl).
Qed.

Lemma Forall2_In_r {A B} (R : A -> B -> Prop) l1 l2 y :
  Forall2 R l1 l2 -> In y l2 -> exists x, In x l1 /\ R x y.
Proof.
  induction 1 as [|a b l1 l2 Hab _ IH]; simpl; intros Hy; [destruct Hy|].
  destruct Hy as [<-|Hy].
  - exists a. split; [now left | assumption].
  - destruct (IH Hy) as (x & Hx & HR). exists x. split; [now right | assumption].
Qed.

(** ** Stock reconciliation: [create_stocks] *)

Lemma create_stocks_unfold watch_remnants offer_ids :
  create_stocks watch_remnants offer_ids
  = match create_stocks_feed watch_remnants [] offer_ids with
    | (Ok stocks, offer_ids') =>
        (Ok (stocks ++ map (fun offer_id => stock_entry offer_id 0) offer_ids'), offer_ids')
    | (Raise e, offer_ids') => (Raise e, offer_ids')
    end.
Proof.
  unfold create_stocks, bind, read, ret.
  now destruct (create_stocks_feed watch_remnants [] offer_ids) as [[stocks|e] offer_ids'].
Qed.

(** The first loop: the records it maps are a subsequence of the feed, their
    updates are appended in that order, and what is left of [offer_ids] is a
    subsequence of it; together the mapped codes and what is left are
    [offer_ids]. *)
Lemma create_stocks_feed_order watch_remnants :
  forall stocks offer_ids out offer_ids',
    create_stocks_feed watch_remnants stocks offer_ids = (Ok out, offer_ids') ->
    exists covered updates,
      subseq covered watch_remnants
      /\ Forall2 covered_entry covered updates
      /\ out = stocks ++ updates
      /\ subseq offer_ids' offer_ids
      /\ Permutation (map code_of covered ++ offer_ids') offer_ids.
Proof.
  induction watch_remnants as [|watch rest IH]; intros stocks offer_ids out offer_ids' H.
  - injection H as <- <-. exists [], []. rewrite app_nil_r.
    repeat split; try constructor; [apply subseq_refl | reflexivity].
  - rewrite create_stocks_feed_cons in H.
    destruct (Py.contains (code_of watch) offer_ids).
    + destruct (stock_of watch) as [v|e] eqn:Hv; [|discriminate].
      destruct (Py.remove (code_of watch) offer_ids) as [ids1|] eqn:Hrm; [|discriminate].
      destruct (remove_spec _ _ _ Hrm) as [Hperm Hsub].
      destruct (IH _ _ _ _ H) as (covered & updates & Hc & Hu & Hout & Hs & Hp).
      exists (watch :: covered), (stock_entry (code_of watch) v :: updates).
      repeat split.
      * now constructor.
      * constructor; [now exists v | assumption].
      * now rewrite Hout, <- app_assoc.
      * eapply subseq_trans; eassumption.
      * simpl. now rewrite Hperm, Hp.
    + destruct (IH _ _ _ _ H) as (covered & updates & Hc & Hu & Hout & Hs & Hp).
      exists covered, updates. repeat split; try assumption. now constructor.
Qed.

(** With a duplicate-free catalog, what the first loop leaves of [offer_ids]
    is the identifiers that no record of the feed carries. *)
Lemma create_stocks_feed_leaves watch_remnants :
  forall stocks offer_ids out offer_ids',
    NoDup offer_ids ->
    create_stocks_feed watch_remnants stocks offer_ids = (Ok out, offer_ids') ->
    offer_ids' = not_in_feed watch_remnants offer_ids.
Proof.
  unfold not_in_feed.
  induction watch_remnants as [|watch rest IH]; intros stocks offer_ids out offer_ids' Hnd H.
  - injection H as <- <-. symmetry. now apply filter_all.
  - rewrite create_stocks_feed_cons in H.
    destruct (Py.contains (code_of watch) offer_ids) eqn:Hin.
    + destruct (stock_of watch) as [v|e]; [|discriminate].
      destruct (Py.remove (code_of watch) offer_ids) as [ids1|] eqn:Hrm; [|discriminate].
      pose proof (remove_NoDup _ _ _ Hnd Hrm) as ->.
      rewrite (IH _ _ _ _ (NoDup_filter _ Hnd) H), filter_twice.
      apply filter_ext. intros y. rewrite map_cons, contains_cons, (eqb_sym y).
      now rewrite negb_orb.
    + rewrite (IH _ _ _ _ Hnd H). apply filter_ext_in. intros y Hy.
      rewrite map_cons, contains_cons.
      destruct (Py.eqb (code_of watch) y) eqn:Heq; [|reflexivity].
      apply eqb_eq in Heq. subst y.
      apply contains_false_In in Hin. contradiction.
Qed.

Lemma quantity_ok_stock_of watch :
  quantity_ok watch = true -> exists v, stock_of watch = Ok v.
Proof.
  unfold quantity_ok, stock_of.
  destruct (Py.get "Количество" watch) as [|z|s]; [discriminate| |].
  - intros _. destruct (String.eqb _ ">10"); [now eexists|].
    destruct (String.eqb _ "1"); now eexists.
  - simpl. intros H. destruct (String.eqb s ">10"); [now eexists|].
    destruct (String.eqb s "1"); [now eexists|].
    simpl in H. apply andb_prop in H as [Hd Hl]. apply Nat.leb_le in Hl.
    exists (decimal_value s). now apply int_of_string_digits.
Qed.

(** On a feed of well-formed quantities the first loop raises nothing. *)
Lemma create_stocks_feed_returns watch_remnants :
  Forall (fun watch => quantity_ok watch = true) watch_remnants ->
  forall stocks offer_ids,
    exists out offer_ids',
      create_stocks_feed watch_remnants stocks offer_ids = (Ok out, offer_ids').
Proof.
  induction 1 as [|watch rest Hq _ IH]; intros stocks offer_ids.
  - now exists stocks, offer_ids.
  - rewrite create_stocks_feed_cons.
    destruct (Py.contains (code_of watch) offer_ids) eqn:Hin; [|apply IH].
    destruct (quantity_ok_stock_of watch Hq) as [v ->].
    destruct (contains_remove _ _ Hin) as [ids1 ->]. apply IH.
Qed.

Lemma create_stocks_returns watch_remnants offer_ids :
  Forall (fun watch => quantity_ok watch = true) watch_remnants ->
  exists stocks offer_ids',
    create_stocks watch_remnants offer_ids = (Ok stocks, offer_ids').
Proof.
  intros Hfeed.
  destruct (create_stocks_feed_returns _ Hfeed [] offer_ids) as (out & ids1 & Hrun).
  rewrite create_stocks_unfold, Hrun. now eexists _, _.
Qed.

Lemma covered_entries_offer_ids covered updates :
  Forall2 covered_entry covered updates ->
  map (Py.get "offer_id") updates = map code_of covered.
Proof.
  induction 1 as [|watch u covered updates (v & _ & ->) _ IH]; simpl;
    [reflexivity | now rewrite IH].
Qed.

Lemma zero_entries_offer_ids offer_ids :
  map (Py.get "offer_id") (map (fun offer_id => stock_entry offer_id 0) offer_ids)
  = offer_ids.
Proof. rewrite map_map. simpl. apply map_id. Qed.

(** C7.  The list [create_stocks] returns is the updates of the supplier
    records it mapped, in feed order, followed by a zero-stock update for
    each identifier left in [offer_ids], in catalog order; the identifiers
    left are the catalog without the mapped codes, and for a duplicate-free
    catalog they are the identifiers that no record of the feed carries. *)
Theorem create_stocks_order (watch_remnants : list Py.dict)
  (offer_ids offer_ids' : list Py.obj) (stocks : list Py.dict)
  (Hret : create_stocks watch_remnants offer_ids = (Ok stocks, offer_ids')) :
  exists covered updates,
    subseq covered watch_remnants
    /\ Forall2 covered_entry covered updates
    /\ stocks = updates ++ map (fun offer_id => stock_entry offer_id 0) offer_ids'
    /\ subseq offer_ids' offer_ids
    /\ Permutation (map code_of covered ++ offer_ids') offer_ids
    /\ (NoDup offer_ids -> offer_ids' = not_in_feed watch_remnants offer_ids).
Proof.
  rewrite create_stocks_unfold in Hret.
  destruct (create_stocks_feed watch_remnants [] offer_ids) as [[out|e] ids1] eqn:Hfeed;
    [|discriminate].
  injection Hret as <- <-.
  destruct (create_stocks_feed_order _ _ _ _ _ Hfeed)
    as (covered & updates & Hc & Hu & Hout & Hs & Hp).
  exists covered, updates. simpl in Hout. subst out.
  repeat split; try assumption.
  intros Hnd. eapply create_stocks_feed_leaves; eassumption.
Qed.

(** The theorem at the feed [A (>10), C (5)] and the catalog [B, A, D]. *)
Lemma create_stocks_order_witness :
  create_stocks [[("Код", Py.Str "A"); ("Количество", Py.Str ">10")];
                 [("Код", Py.Str "C"); ("Количество", Py.Str "5")]]
                [Py.Str "B"; Py.Str "A"; Py.Str "D"]
  = (Ok [stock_entry (Py.Str "A") 100; stock_entry (Py.Str "B") 0;
         stock_entry (Py.Str "D") 0],
     [Py.Str "B"; Py.Str "D"])
  /\ exists covered updates,
       subseq covered [[("Код", Py.Str "A"); ("Количество", Py.Str ">10")];
                       [("Код", Py.Str "C"); ("Количество", Py.Str "5")]]
       /\ Forall2 covered_entry covered updates
       /\ [stock_entry (Py.Str "A") 100; stock_entry (Py.Str "B") 0;
           stock_entry (Py.Str "D") 0]
          = updates ++ map (fun offer_id => stock_entry offer_id 0) [Py.Str "B"; Py.Str "D"].
Proof.
  split; [reflexivity|].
  destruct (create_stocks_order
              [[("Код", Py.Str "A"); ("Количество", Py.Str ">10")];
               [("Код", Py.Str "C"); ("Количество", Py.Str "5")]]
              [Py.Str "B"; Py.Str "A"; Py.Str "D"] [Py.Str "B"; Py.Str "D"]
              [stock_entry (Py.Str "A") 100; stock_entry (Py.Str "B") 0;
               stock_entry (Py.Str "D") 0] eq_refl)
    as (covered & updates & Hc & Hu & Hout & _).
  exists covered, updates. repeat split; assumption.
Defined.

(** C1, as the code has it.  For a duplicate-free catalog [offer_ids] and
    a feed on which [create_stocks] returns, the list returned has as many
    updates as the catalog has identifiers; their [offer_id] fields are the
    catalog's identifiers, each once; and an identifier that no record of the
    feed carries has the update with stock 0. *)
Theorem create_stocks_one_per_offer_id (watch_remnants : list Py.dict)
  (offer_ids offer_ids' : list Py.obj) (stocks : list Py.dict)
  (Hcat : NoDup offer_ids)
  (Hret : create_stocks watch_remnants offer_ids = (Ok stocks, offer_ids')) :
  length stocks = length offer_ids
  /\ Permutation (map (Py.get "offer_id") stocks) offer_ids
  /\ NoDup (map (Py.get "offer_id") stocks)
  /\ (forall offer_id,
        In offer_id offer_ids ->
        Py.contains offer_id (map code_of watch_remnants) = false ->
        In (stock_entry offer_id 0) stocks)
  /\ (forall u,
        In u stocks ->
        Py.contains (Py.get "offer_id" u) (map code_of watch_remnants) = false ->
        Py.get "stock" u = Py.Int 0).
Proof.
  rewrite create_stocks_unfold in Hret.
  destruct (create_stocks_feed watch_remnants [] offer_ids) as [[out|e] ids1] eqn:Hrun;
    [|discriminate].
  injection Hret as <- <-.
  destruct (create_stocks_feed_order _ _ _ _ _ Hrun)
    as (covered & updates & Hc & Hu & Hout & Hs & Hp).
  pose proof (create_stocks_feed_leaves _ _ _ _ _ Hcat Hrun) as Hleft.
  simpl in Hout. subst out.
  assert (Hids : Permutation
                   (map (Py.get "offer_id")
                        (updates ++ map (fun offer_id => stock_entry offer_id 0) ids1))
                   offer_ids).
  { now rewrite map_app, (covered_entries_offer_ids _ _ Hu), zero_entries_offer_ids. }
  split; [|split; [|split; [|split]]].
  - rewrite <- (Permutation_length Hids). now rewrite length_map.
  - assumption.
  - apply (Permutation_NoDup (Permutation_sym Hids) Hcat).
  - intros offer_id Hin Hnot. apply in_or_app. right.
    apply in_map_iff. exists offer_id. split; [reflexivity|].
    rewrite Hleft. unfold not_in_feed. apply filter_In. split; [assumption|].
    now rewrite Hnot.
  - intros u Hin Hnot. apply in_app_or in Hin as [Hin|Hin].
    + destruct (Forall2_In_r _ _ _ _ Hu Hin) as (watch & Hw & v & _ & ->).
      simpl in Hnot. apply contains_false_In in Hnot. contradiction Hnot.
      apply in_map. eapply subseq_In; eassumption.
    + apply in_map_iff in Hin as (offer_id & <- & _). reflexivity.
Qed.

(** The theorem at the feed [A (>10), A (3), C (5)] and the catalog
    [B, A, D]. *)
Lemma create_stocks_one_per_offer_id_witness :
  NoDup [Py.Str "B"; Py.Str "A"; Py.Str "D"]
  /\ create_stocks [[("Код", Py.Str "A"); ("Количество", Py.Str ">10")];
                    [("Код", Py.Str "A"); ("Количество", Py.Str "3")];
                    [("Код", Py.Str "C"); ("Количество", Py.Int 5)]]
                   [Py.Str "B"; Py.Str "A"; Py.Str "D"]
     = (Ok [stock_entry (Py.Str "A") 100; stock_entry (Py.Str "B") 0;
            stock_entry (Py.Str "D") 0],
        [Py.Str "B"; Py.Str "D"])
  /\ length [stock_entry (Py.Str "A") 100; stock_entry (Py.Str "B") 0;
             stock_entry (Py.Str "D") 0]
     = length [Py.Str "B"; Py.Str "A"; Py.Str "D"]
  /\ NoDup (map (Py.get "offer_id")
                [stock_entry (Py.Str "A") 100; stock_entry (Py.Str "B") 0;
                 stock_entry (Py.Str "D") 0]).
Proof.
  assert (Hcat : NoDup [Py.Str "B"; Py.Str "A"; Py.Str "D"]).
  { repeat constructor; simpl; intuition discriminate. }
  split; [exact Hcat|]. split; [reflexivity|].
  destruct (create_stocks_one_per_offer_id
              [[("Код", Py.Str "A"); ("Количество", Py.Str ">10")];
               [("Код", Py.Str "A"); ("Количество", Py.Str "3")];
               [("Код", Py.Str "C"); ("Количество", Py.Int 5)]]
              [Py.Str "B"; Py.Str "A"; Py.Str "D"] [Py.Str "B"; Py.Str "D"]
              [stock_entry (Py.Str "A") 100; stock_entry (Py.Str "B") 0;
               stock_entry (Py.Str "D") 0] Hcat eq_refl)
    as (Hlen & _ & Hnd & _).
  split; assumption.
Defined.

(** C1 fails at a feed with a quantity that is no number, for a record of
    the catalog: [create_stocks] raises and returns no list. *)
Lemma create_stocks_malformed_quantity_raises :
  create_stocks [[("Код", Py.Str "A"); ("Количество", Py.Str "many")]] [Py.Str "A"]
  = (Raise ValueError, [Py.Str "A"])
  /\ NoDup [Py.Str "A"].
Proof. split; [reflexivity | repeat constructor; simpl; intuition]. Qed.

(** ** Price reconciliation: [create_prices] *)

(** One iteration of the loop of [create_prices]. *)
Lemma create_prices_feed_cons watch rest prices offer_ids :
  create_prices_feed (watch :: rest) prices offer_ids
  = if Py.contains (code_of watch) offer_ids then
      match price_conversion (Py.get "Цена" watch) with
      | Ok price =>
          create_prices_feed rest (prices ++ [price_entry (code_of watch) price]) offer_ids
      | Raise e => (Raise e, offer_ids)
      end
    else create_prices_feed rest prices offer_ids.
Proof.
  unfold code_of. simpl. unfold bind at 1, read at 1.
  destruct (Py.contains _ offer_ids); [|reflexivity].
  unfold bind at 1, lift at 1.
  now destruct (price_conversion (Py.get "Цена" watch)).
Qed.

Lemma create_prices_feed_state watch_remnants :
  forall prices offer_ids,
    snd (create_prices_feed watch_remnants prices offer_ids) = offer_ids.
Proof.
  induction watch_remnants as [|watch rest IH]; intros prices offer_ids.
  - reflexivity.
  - rewrite create_prices_feed_cons.
    destruct (Py.contains (code_of watch) offer_ids); [|apply IH].
    destruct (price_conversion (Py.get "Цена" watch)); [apply IH | reflexivity].
Qed.

Lemma create_prices_feed_filter watch_remnants offer_ids :
  Forall (fun watch => Py.contains (code_of watch) offer_ids = true ->
                       exists s, Py.get "Цена" watch = Py.Str s) watch_remnants ->
  forall prices,
    exists out,
      create_prices_feed watch_remnants prices offer_ids = (Ok (prices ++ out), offer_ids)
      /\ Forall2 price_update_of
           (filter (fun watch => Py.contains (code_of watch) offer_ids) watch_remnants) out.
Proof.
  induction 1 as [|watch rest Hw _ IH]; intros prices.
  - exists []. rewrite app_nil_r. split; [reflexivity | constructor].
  - rewrite create_prices_feed_cons. simpl.
    destruct (Py.contains (code_of watch) offer_ids); [|apply IH].
    destruct (Hw eq_refl) as [s Hs].
    destruct (IH (prices ++ [price_entry (code_of watch)
                                (Py.sub_non_digits (Py.split_dot_0 s))]))
      as (out & Hrun & Hout).
    exists (price_entry (code_of watch) (Py.sub_non_digits (Py.split_dot_0 s)) :: out).
    rewrite Hs. simpl. rewrite Hrun, <- app_assoc. split; [reflexivity|].
    constructor; [|assumption].
    eexists. rewrite Hs. split; reflexivity.
Qed.

(** When no record of the feed has its code in [offer_ids], nothing is
    appended and [price_conversion] is not called. *)
Lemma create_prices_feed_none watch_remnants offer_ids :
  (forall watch, In watch watch_remnants ->
                 Py.contains (code_of watch) offer_ids = false) ->
  forall prices, create_prices_feed watch_remnants prices offer_ids = (Ok prices, offer_ids).
Proof.
  induction watch_remnants as [|watch rest IH]; intros Hnone prices; [reflexivity|].
  rewrite create_prices_feed_cons, (Hnone watch (or_introl eq_refl)).
  apply IH. intros w Hw. apply Hnone. now right.
Qed.

(** C8.  When the codes of the feed are printable and the price of every
    record whose code is in [offer_ids] is text, [create_prices] returns one
    price update for each such record of the feed, in feed order, and no
    other: the update carries the record's code, the price
    [price_conversion] gives for the record's price, the currency RUB, the
    old price 0 and UNKNOWN for the automatic action. *)
Theorem create_prices_covered (watch_remnants : list Py.dict) (offer_ids : list Py.obj)
  (Hcode : Forall (fun watch => printable (Py.get "Код" watch) = true) watch_remnants)
  (Hprice : Forall (fun watch => Py.contains (code_of watch) offer_ids = true ->
                                 exists s, Py.get "Цена" watch = Py.Str s)
                   watch_remnants) :
  exists prices,
    create_prices watch_remnants offer_ids = (Ok prices, offer_ids)
    /\ Forall2
         (fun watch p =>
            exists price,
              price_conversion (Py.get "Цена" watch) = Ok price
              /\ p = price_entry (code_of watch) price
              /\ Py.get "offer_id" p = code_of watch
              /\ Py.get "price" p = Py.Str price
              /\ Py.get "currency_code" p = Py.Str "RUB"
              /\ Py.get "old_price" p = Py.Str "0"
              /\ Py.get "auto_action_enabled" p = Py.Str "UNKNOWN")
         (filter (fun watch => Py.contains (code_of watch) offer_ids) watch_remnants)
         prices.
Proof.
  destruct (create_prices_feed_filter _ _ Hprice []) as (out & Hrun & Hout).
  exists out. split; [exact Hrun|].
  eapply Forall2_impl; [|exact Hout].
  intros watch p (price & Hconv & ->). exists price. repeat split. exact Hconv.
Qed.

(** The theorem at the end-to-end scenario of the specification. *)
Lemma create_prices_covered_witness :
  Forall (fun watch => printable (Py.get "Код" watch) = true)
         [[("Код", Py.Str "A"); ("Количество", Py.Str ">10"); ("Цена", Py.Str "100.00 p")]]
  /\ Forall (fun watch => Py.contains (code_of watch) [Py.Str "A"; Py.Str "B"] = true ->
                       exists s, Py.get "Цена" watch = Py.Str s)
         [[("Код", Py.Str "A"); ("Количество", Py.Str ">10"); ("Цена", Py.Str "100.00 p")]]
  /\ exists prices,
       create_prices
         [[("Код", Py.Str "A"); ("Количество", Py.Str ">10"); ("Цена", Py.Str "100.00 p")]]
         [Py.Str "A"; Py.Str "B"]
       = (Ok prices, [Py.Str "A"; Py.Str "B"]).
Proof.
  assert (H : Forall (fun watch => Py.contains (code_of watch) [Py.Str "A"; Py.Str "B"] = true ->
                                   exists s, Py.get "Цена" watch = Py.Str s)
                [[("Код", Py.Str "A"); ("Количество", Py.Str ">10");
                  ("Цена", Py.Str "100.00 p")]]).
  { constructor; [|constructor]. intros _. now exists "100.00 p". }
  assert (Hc : Forall (fun watch => printable (Py.get "Код" watch) = true)
                 [[("Код", Py.Str "A"); ("Количество", Py.Str ">10");
                   ("Цена", Py.Str "100.00 p")]])
    by (repeat constructor).
  split; [exact Hc|]. split; [exact H|].
  destruct (create_prices_covered _ _ Hc H) as (prices & Hrun & _).
  now exists prices.
Defined.

(** C9.  [create_prices] leaves the list [offer_ids] as it was, whatever the
    feed and whether it returns or raises; [create_stocks] does not: it
    removes the codes it maps. *)
Theorem create_prices_keeps_offer_ids (watch_remnants : list Py.dict)
  (offer_ids : list Py.obj) :
  snd (create_prices watch_remnants offer_ids) = offer_ids
  /\ snd (create_stocks [[("Код", Py.Str "A"); ("Количество", Py.Str ">10")]]
                        [Py.Str "A"; Py.Str "B"])
     = [Py.Str "B"].
Proof. split; [apply create_prices_feed_state | reflexivity]. Qed.

(** ** The scheduled entry point: [main] *)

Lemma not_in_feed_excludes watch_remnants offer_ids watch :
  In watch watch_remnants ->
  Py.contains (code_of watch) (not_in_feed watch_remnants offer_ids) = false.
Proof.
  intros Hin. apply contains_false_In. unfold not_in_feed. intros Hc.
  apply filter_In in Hc as [_ Hc].
  assert (Hcode : Py.contains (code_of watch) (map code_of watch_remnants) = true)
    by (apply contains_In; now apply in_map).
  rewrite Hcode in Hc. discriminate.
Qed.

(** After [create_stocks] on a duplicate-free catalog, [create_prices] on
    the same list finds no record to price. *)
Lemma create_prices_after_create_stocks watch_remnants offer_ids stocks offer_ids' :
  NoDup offer_ids ->
  create_stocks watch_remnants offer_ids = (Ok stocks, offer_ids') ->
  create_prices watch_remnants offer_ids' = (Ok [], offer_ids').
Proof.
  intros Hnd Hrun. rewrite create_stocks_unfold in Hrun.
  destruct (create_stocks_feed watch_remnants [] offer_ids) as [[out|e] ids1] eqn:Hfeed;
    [|discriminate].
  injection Hrun as _ <-.
  rewrite (create_stocks_feed_leaves _ _ _ _ _ Hnd Hfeed).
  apply create_prices_feed_none. intros watch Hin. now apply not_in_feed_excludes.
Qed.

Lemma for_each_all_ok {A} (call : A -> result unit) batches :
  (forall b, call b = Ok tt) -> for_each call batches = (batches, None).
Proof.
  intros Hok. induction batches as [|b bs IH]; simpl; [reflexivity|].
  now rewrite Hok, IH.
Qed.

(** C10.  In [main], with a duplicate-free catalog, [update_price] is never
    called: if line 368 is reached, [create_prices] is given the list that
    [create_stocks] has emptied of every code of the feed, and returns the
    empty list.  Line 368 is reached when the quantities of the feed are
    well formed and the stock requests succeed. *)
Theorem main_sends_no_price (update_stocks update_price : list Py.dict -> result unit)
  (offer_ids : list Py.obj) (watch_remnants : list Py.dict)
  (Hcat : NoDup offer_ids) :
  price_requests (main update_stocks update_price offer_ids watch_remnants) = []
  /\ (prices (main update_stocks update_price offer_ids watch_remnants) = None
      \/ prices (main update_stocks update_price offer_ids watch_remnants) = Some [])
  /\ (forall stocks offer_ids',
        create_stocks watch_remnants offer_ids = (Ok stocks, offer_ids') ->
        create_prices watch_remnants offer_ids' = (Ok [], offer_ids'))
  /\ (Forall (fun watch => quantity_ok watch = true) watch_remnants ->
      (forall batch, update_stocks batch = Ok tt) ->
      prices (main update_stocks update_price offer_ids watch_remnants) = Some []).
Proof.
  assert (Hafter : forall stocks offer_ids',
             create_stocks watch_remnants offer_ids = (Ok stocks, offer_ids') ->
             create_prices watch_remnants offer_ids' = (Ok [], offer_ids'))
    by (intros; eapply create_prices_after_create_stocks; eassumption).
  assert (Hmain : price_requests (main update_stocks update_price offer_ids watch_remnants) = []
                  /\ (prices (main update_stocks update_price offer_ids watch_remnants) = None
                      \/ prices (main update_stocks update_price offer_ids watch_remnants)
                         = Some [])).
  { unfold main.
    destruct (create_stocks watch_remnants offer_ids) as [[stocks|e] ids1] eqn:Hrun;
      [|now split; [|left]].
    destruct (divide stocks 100) as [batches|e]; [|now split; [|left]].
    destruct (for_each update_stocks batches) as [sent [e|]]; [now split; [|left]|].
    rewrite (Hafter _ _ eq_refl). simpl. split; [reflexivity | now right]. }
  destruct Hmain as [Hreq Hprices].
  repeat split; try assumption.
  intros Hfeed Hok. unfold main.
  destruct (create_stocks_returns watch_remnants offer_ids Hfeed)
    as (stocks & ids1 & Hrun).
  rewrite Hrun, (divide_pos stocks 100) by lia.
  rewrite (for_each_all_ok _ _ Hok), (Hafter _ _ Hrun). reflexivity.
Qed.

(** The theorem at the end-to-end scenario of the specification, every
    request succeeding: line 368 is reached and [prices] is empty. *)
Lemma main_sends_no_price_witness :
  NoDup [Py.Str "A"; Py.Str "B"]
  /\ price_requests
       (main (fun _ => Ok tt) (fun _ => Ok tt) [Py.Str "A"; Py.Str "B"]
          [[("Код", Py.Str "A"); ("Количество", Py.Str ">10"); ("Цена", Py.Str "100.00 p")]])
     = [].
Proof.
  assert (Hcat : NoDup [Py.Str "A"; Py.Str "B"]).
  { repeat constructor; simpl; intuition discriminate. }
  split; [exact Hcat|].
  apply (main_sends_no_price (fun _ => Ok tt) (fun _ => Ok tt) _ _ Hcat).
Defined.

(** The same scenario through [main] and through a fresh catalog list, as
    [upload_prices] fetches one. *)
Example main_scenario :
  let feed := [[("Код", Py.Str "A"); ("Количество", Py.Str ">10");
                ("Цена", Py.Str "100.00 p")]] in
  main (fun _ => Ok tt) (fun _ => Ok tt) [Py.Str "A"; Py.Str "B"] feed
  = Run [[stock_entry (Py.Str "A") 100; stock_entry (Py.Str "B") 0]] (Some []) [] None
  /\ fst (create_prices feed [Py.Str "A"; Py.Str "B"])
     = Ok [price_entry (Py.Str "A") "100"].
Proof. split; reflexivity. Qed.

(** ** Pagination: [get_offer_ids] *)

Section CatalogFacts.

Variable get_product_list : nat -> string -> result page.

Lemma fetched_raise k e :
  fetched get_product_list k = Raise e -> forall m, (k <= m)%nat -> fetched get_product_list m = Raise e.
Proof.
  intros Hk m Hm. induction Hm as [|m _ IH]; [assumption|].
  simpl. now rewrite IH.
Qed.

(** What each outcome of the loop means, from a state the loop reaches
    after [calls] requests. *)
Lemma loop_outcome fuel :
  forall calls last_id product_list,
    fetched get_product_list calls = Ok (product_list, last_id) ->
    match get_offer_ids_loop get_product_list fuel calls last_id product_list with
    | Returned ids =>
        exists k st,
          (calls < k <= calls + fuel)%nat
          /\ exits_at get_product_list k = true
          /\ (forall j, (calls < j < k)%nat -> exits_at get_product_list j = false)
          /\ fetched get_product_list k = Ok st
          /\ ids = map (Py.get "offer_id") (fst st)
    | Raised e =>
        exists k st,
          (calls <= k < calls + fuel)%nat
          /\ (forall j, (calls < j <= k)%nat -> exits_at get_product_list j = false)
          /\ fetched get_product_list k = Ok st
          /\ get_product_list k (snd st) = Raise e
    | OutOfFuel =>
        (forall j, (calls < j <= calls + fuel)%nat -> exits_at get_product_list j = false)
        /\ exists st, fetched get_product_list (calls + fuel) = Ok st
    end.
Proof.
  induction fuel as [|fuel IH]; intros calls last_id product_list Hst.
  - simpl. split; [intros j Hj; lia|].
    rewrite Nat.add_0_r. now exists (product_list, last_id).
  - simpl. destruct (get_product_list calls last_id) as [some_prod|e] eqn:Hpage.
    + assert (Hnext : fetched get_product_list (S calls)
                      = Ok (product_list ++ page_items some_prod, page_last_id some_prod)).
      { simpl. rewrite Hst. simpl. now rewrite Hpage. }
      assert (Hexit : exits_at get_product_list (S calls)
                      = (page_total some_prod
                         =? Py.len (product_list ++ page_items some_prod))).
      { simpl. rewrite Hst. simpl. now rewrite Hpage. }
      destruct (page_total some_prod =? Py.len (product_list ++ page_items some_prod))
        eqn:Htest.
      * exists (S calls), (product_list ++ page_items some_prod, page_last_id some_prod).
        repeat split; try assumption; try lia.
      * specialize (IH _ _ _ Hnext).
        destruct (get_offer_ids_loop get_product_list fuel (S calls) (page_last_id some_prod)
                    (product_list ++ page_items some_prod)) as [ids|e|].
        -- destruct IH as (k & st & Hk & Hex & Hbefore & Hf & Hids).
           exists k, st. repeat split; try assumption; try lia.
           intros j Hj. destruct (Nat.eq_dec j (S calls)) as [->|Hne];
             [assumption | apply Hbefore; lia].
        -- destruct IH as (k & st & Hk & Hbefore & Hf & Hr).
           exists k, st. repeat split; try assumption; try lia.
           intros j Hj. destruct (Nat.eq_dec j (S calls)) as [->|Hne];
             [assumption | apply Hbefore; lia].
        -- destruct IH as (Hbefore & st & Hf). split.
           ++ intros j Hj. destruct (Nat.eq_dec j (S calls)) as [->|Hne];
                [assumption | apply Hbefore; lia].
           ++ exists st. now rewrite Nat.add_succ_r.
    + exists calls, (product_list, last_id).
      repeat split; try assumption; try lia.
Qed.

(** A page with no item and a total that is not the count so far does not
    stop the loop: the next request is made. *)
Lemma loop_empty_page fuel calls last_id product_list some_prod :
  get_product_list calls last_id = Ok some_prod ->
  page_items some_prod = [] ->
  page_total some_prod <> Py.len product_list ->
  get_offer_ids_loop get_product_list (S fuel) calls last_id product_list
  = get_offer_ids_loop get_product_list fuel (S calls) (page_last_id some_prod) product_list.
Proof.
  intros Hpage Hitems Htotal. simpl. rewrite Hpage, Hitems, app_nil_r.
  destruct (Z.eqb_spec (page_total some_prod) (Py.len product_list));
    [contradiction | reflexivity].
Qed.

Lemma loop_stalled :
  (forall calls last_id,
      exists some_prod,
        get_product_list calls last_id = Ok some_prod
        /\ page_items some_prod = []
        /\ page_total some_prod <> 0) ->
  forall fuel calls last_id, get_offer_ids_loop get_product_list fuel calls last_id [] = OutOfFuel.
Proof.
  intros Hstall. induction fuel as [|fuel IH]; intros calls last_id; [reflexivity|].
  destruct (Hstall calls last_id) as (some_prod & Hpage & Hitems & Htotal).
  rewrite (loop_empty_page _ _ _ _ _ Hpage Hitems) by exact Htotal.
  apply IH.
Qed.

End CatalogFacts.

(** C4, as the code has it.  [get_offer_ids] returns exactly when, after
    some request, the number of accumulated items equals the total of that
    page, at the first such request, with the [offer_id] of the items
    accumulated until then.  A page with no item while the total is not
    reached is not detected: against a marketplace that answers every request
    so, the loop goes on for ever. *)
Theorem get_offer_ids_exit (get_product_list : nat -> string -> result page) :
  (forall fuel ids,
     get_offer_ids get_product_list fuel = Returned ids <->
     exists k st,
       (1 <= k <= fuel)%nat
       /\ exits_at get_product_list k = true
       /\ (forall j, (j < k)%nat -> exits_at get_product_list j = false)
       /\ fetched get_product_list k = Ok st
       /\ ids = map (Py.get "offer_id") (fst st))
  /\ ((forall calls last_id,
          exists some_prod,
            get_product_list calls last_id = Ok some_prod
            /\ page_items some_prod = []
            /\ page_total some_prod <> 0) ->
      never_ends get_product_list).
Proof.
  assert (Hinit : fetched get_product_list 0 = Ok ([], EmptyString)) by reflexivity.
  split.
  - intros fuel ids. pose proof (loop_outcome get_product_list fuel _ _ _ Hinit) as Hout.
    unfold get_offer_ids. split.
    + intros Hret. rewrite Hret in Hout.
      destruct Hout as (k & st & Hk & Hex & Hbefore & Hf & Hids).
      exists k, st. repeat split; try assumption; try lia.
      intros j Hj. destruct j as [|j]; [reflexivity | apply Hbefore; lia].
    + intros (k & st & Hk & Hex & Hbefore & Hf & Hids).
      destruct (get_offer_ids_loop get_product_list fuel 0 EmptyString []) as [ids'|e|].
      * destruct Hout as (k' & st' & Hk' & Hex' & Hbefore' & Hf' & Hids').
        assert (k' = k).
        { destruct (Nat.lt_trichotomy k' k) as [Hlt|[Heq|Hgt]]; [|assumption|].
          - rewrite (Hbefore k' Hlt) in Hex'. discriminate.
          - rewrite (Hbefore' k) in Hex by lia. discriminate. }
        subst k'. rewrite Hf in Hf'. injection Hf' as <-. now subst.
      * destruct Hout as (k' & st' & Hk' & Hbefore' & Hf' & Hr).
        destruct (Nat.le_gt_cases k k') as [Hle|Hgt].
        -- rewrite (Hbefore' k) in Hex by lia. discriminate.
        -- assert (Hraise : fetched get_product_list (S k') = Raise e).
           { simpl. rewrite Hf'. simpl. now rewrite Hr. }
           rewrite (fetched_raise _ _ _ Hraise k) in Hf by lia. discriminate.
      * destruct Hout as [Hbefore' _].
        rewrite (Hbefore' k) in Hex by lia. discriminate.
  - intros Hstall fuel. now apply loop_stalled.
Qed.

(** The theorem at a marketplace of one page of one product, and at the
    stalled marketplace. *)
Lemma get_offer_ids_exit_witness :
  get_offer_ids (fun _ _ => Ok (Page [[("offer_id", Py.Str "A")]] 1 "x")) 3
  = Returned [Py.Str "A"]
  /\ never_ends stalled_server.
Proof.
  split.
  - apply (proj1 (get_offer_ids_exit (fun _ _ => Ok (Page [[("offer_id", Py.Str "A")]] 1 "x")))).
    exists 1%nat, ([[("offer_id", Py.Str "A")]], "x").
    repeat split; try lia.
    intros j Hj. assert (j = 0%nat) as -> by lia. reflexivity.
  - apply (proj2 (get_offer_ids_exit stalled_server)).
    intros calls last_id. exists (Page [] 1 last_id).
    repeat split. discriminate.
Defined.

(** C4 fails at the stalled marketplace: every page is empty, the total of 1
    is never reached, and the loop neither raises nor returns, whatever the
    number of requests. *)
Lemma get_offer_ids_stalled_never_ends :
  get_offer_ids stalled_server 1000 = OutOfFuel /\ never_ends stalled_server.
Proof.
  split; [reflexivity|].
  intros fuel. unfold get_offer_ids.
  generalize 0%nat, EmptyString.
  induction fuel as [|fuel IH]; intros calls last_id; [reflexivity | apply IH].
Qed.


(** * Further properties of the code *)

(** ** [create_stocks] beyond well-formed feeds and duplicate-free catalogs *)

Lemma create_stocks_feed_state watch_remnants :
  forall stocks offer_ids,
    subseq (snd (create_stocks_feed watch_remnants stocks offer_ids)) offer_ids.
Proof.
  induction watch_remnants as [|watch rest IH]; intros stocks offer_ids.
  - apply subseq_refl.
  - rewrite create_stocks_feed_cons.
    destruct (Py.contains (code_of watch) offer_ids); [|apply IH].
    destruct (stock_of watch) as [v|e]; [|apply subseq_refl].
    destruct (Py.remove (code_of watch) offer_ids) as [ids1|] eqn:Hrm;
      [|apply subseq_refl].
    eapply subseq_trans; [apply IH|]. now apply remove_spec in Hrm.
Qed.

Lemma create_stocks_feed_raise watch_remnants :
  forall stocks offer_ids e offer_ids',
    create_stocks_feed watch_remnants stocks offer_ids = (Raise e, offer_ids') ->
    exists watch,
      In watch watch_remnants /\ In (code_of watch) offer_ids
      /\ stock_of watch = Raise e.
Proof.
  induction watch_remnants as [|watch rest IH]; intros stocks offer_ids e offer_ids' H.
  - discriminate.
  - rewrite create_stocks_feed_cons in H.
    destruct (Py.contains (code_of watch) offer_ids) eqn:Hin.
    + destruct (stock_of watch) as [v|e0] eqn:Hv.
      * destruct (contains_remove _ _ Hin) as [ids1 Hrm]. rewrite Hrm in H.
        destruct (IH _ _ _ _ H) as (w & Hw & Hc & Hs).
        exists w. repeat split; [now right | | assumption].
        apply remove_spec in Hrm as [_ Hsub]. eapply subseq_In; eassumption.
      * injection H as <- _. exists watch.
        repeat split; [now left | now apply contains_In | assumption].
    + destruct (IH _ _ _ _ H) as (w & Hw & Hc & Hs).
      exists w. repeat split; [now right | assumption | assumption].
Qed.

Lemma create_stocks_feed_returns_catalogued watch_remnants :
  forall stocks offer_ids,
    Forall (fun watch => In (code_of watch) offer_ids -> quantity_ok watch = true)
           watch_remnants ->
    exists out offer_ids',
      create_stocks_feed watch_remnants stocks offer_ids = (Ok out, offer_ids').
Proof.
  induction watch_remnants as [|watch rest IH]; intros stocks offer_ids Hq.
  - now exists stocks, offer_ids.
  - inversion Hq as [|? ? Hw Hrest]; subst.
    rewrite create_stocks_feed_cons.
    destruct (Py.contains (code_of watch) offer_ids) eqn:Hin; [|now apply IH].
    destruct (quantity_ok_stock_of watch (Hw (proj1 (contains_In _ _) Hin))) as [v ->].
    destruct (contains_remove _ _ Hin) as [ids1 Hrm]. rewrite Hrm.
    apply IH. eapply Forall_impl; [|exact Hrest].
    intros w Hok Hw1. apply Hok.
    apply remove_spec in Hrm as [_ Hsub]. eapply subseq_In; eassumption.
Qed.

Lemma create_stocks_feed_first watch_remnants :
  forall stocks offer_ids out offer_ids',
    NoDup offer_ids ->
    create_stocks_feed watch_remnants stocks offer_ids = (Ok out, offer_ids') ->
    forall offer_id watch,
      In offer_id offer_ids ->
      first_record offer_id watch_remnants = Some watch ->
      exists v, stock_of watch = Ok v /\ In (stock_entry offer_id v) out.
Proof.
  unfold first_record.
  induction watch_remnants as [|w0 rest IH];
    intros stocks offer_ids out offer_ids' Hnd H offer_id watch Hin Hfirst.
  - discriminate.
  - rewrite create_stocks_feed_cons in H. cbn [find] in Hfirst.
    destruct (Py.eqb (code_of w0) offer_id) eqn:Heq.
    + injection Hfirst as <-. apply eqb_eq in Heq. subst offer_id.
      rewrite (proj2 (contains_In _ _) Hin) in H.
      destruct (stock_of w0) as [v|e]; [|discriminate].
      destruct (Py.remove (code_of w0) offer_ids) as [ids1|]; [|discriminate].
      destruct (create_stocks_feed_order _ _ _ _ _ H) as (_ & updates & _ & _ & -> & _).
      exists v. split; [reflexivity|].
      rewrite <- app_assoc. apply in_or_app. right. now left.
    + destruct (Py.contains (code_of w0) offer_ids).
      * destruct (stock_of w0) as [v0|e]; [|discriminate].
        destruct (Py.remove (code_of w0) offer_ids) as [ids1|] eqn:Hrm; [|discriminate].
        pose proof (remove_NoDup _ _ _ Hnd Hrm) as ->.
        apply (IH _ _ _ _ (NoDup_filter _ Hnd) H); [|assumption].
        apply filter_In. split; [assumption|]. now rewrite eqb_sym, Heq.
      * now apply (IH _ _ _ _ Hnd H).
Qed.

Lemma create_stocks_feed_skips watch_remnants offer_ids :
  (forall watch, In watch watch_remnants ->
                 Py.contains (code_of watch) offer_ids = false) ->
  forall stocks, create_stocks_feed watch_remnants stocks offer_ids = (Ok stocks, offer_ids).
Proof.
  induction watch_remnants as [|watch rest IH]; intros Hnone stocks; [reflexivity|].
  rewrite create_stocks_feed_cons, (Hnone watch (or_introl eq_refl)).
  apply IH. intros w Hw. apply Hnone. now right.
Qed.

Lemma decimal_value_nonneg s : 0 <= decimal_value s.
Proof.
  unfold decimal_value.
  assert (H : forall cs acc, 0 <= acc ->
            0 <= fold_left (fun a c => 10 * a + Py.digit_value c) cs acc).
  { induction cs as [|c cs IH]; intros acc Hacc; cbn [fold_left]; [assumption|].
    apply IH. unfold Py.digit_value. lia. }
  apply H. lia.
Qed.

Lemma quantity_nonneg_stock_of watch v :
  quantity_nonneg watch = true -> stock_of watch = Ok v -> 0 <= v.
Proof.
  unfold quantity_nonneg, stock_of.
  destruct (Py.get "Количество" watch) as [|z|s]; [discriminate| |].
  - intros Hz. apply Z.leb_le in Hz.
    destruct (String.eqb _ ">10"); [intros [= <-]; lia|].
    destruct (String.eqb _ "1"); intros [= <-]; lia.
  - simpl. intros H. destruct (String.eqb s ">10"); [intros [= <-]; lia|].
    destruct (String.eqb s "1"); [intros [= <-]; lia|].
    simpl in H. apply andb_prop in H as [Hd Hl]. apply Nat.leb_le in Hl.
    rewrite (int_of_string_digits s Hd Hl). intros [= <-]. apply decimal_value_nonneg.
Qed.

Lemma create_stocks_returned_offer_ids watch_remnants offer_ids offer_ids' stocks :
  create_stocks watch_remnants offer_ids = (Ok stocks, offer_ids') ->
  Permutation (map (Py.get "offer_id") stocks) offer_ids.
Proof.
  intros Hret. rewrite create_stocks_unfold in Hret.
  destruct (create_stocks_feed watch_remnants [] offer_ids) as [[out|e] ids1] eqn:Hfeed;
    [|discriminate].
  injection Hret as <- <-.
  destruct (create_stocks_feed_order _ _ _ _ _ Hfeed)
    as (covered & updates & _ & Hu & -> & _ & Hp).
  simpl. now rewrite map_app, (covered_entries_offer_ids _ _ Hu), zero_entries_offer_ids.
Qed.

(** X1.  Whatever the catalog, duplicates included: when [create_stocks]
    returns, the [offer_id] fields of its updates are the catalog's
    identifiers, each as many times as the catalog has it, and there are as
    many updates as identifiers. *)
Theorem create_stocks_permutation (watch_remnants : list Py.dict)
  (offer_ids offer_ids' : list Py.obj) (stocks : list Py.dict)
  (Hret : create_stocks watch_remnants offer_ids = (Ok stocks, offer_ids')) :
  Permutation (map (Py.get "offer_id") stocks) offer_ids
  /\ length stocks = length offer_ids.
Proof.
  pose proof (create_stocks_returned_offer_ids _ _ _ _ Hret) as Hperm.
  split; [assumption|].
  rewrite <- (Permutation_length Hperm). now rewrite length_map.
Qed.

(** The theorem at a catalog that lists [A] twice. *)
Lemma create_stocks_permutation_witness :
  create_stocks [[("Код", Py.Str "A"); ("Количество", Py.Str "4")]]
                [Py.Str "A"; Py.Str "B"; Py.Str "A"]
  = (Ok [stock_entry (Py.Str "A") 4; stock_entry (Py.Str "B") 0;
         stock_entry (Py.Str "A") 0],
     [Py.Str "B"; Py.Str "A"])
  /\ Permutation
       (map (Py.get "offer_id")
            [stock_entry (Py.Str "A") 4; stock_entry (Py.Str "B") 0;
             stock_entry (Py.Str "A") 0])
       [Py.Str "A"; Py.Str "B"; Py.Str "A"].
Proof.
  split; [reflexivity|].
  apply (create_stocks_permutation
           [[("Код", Py.Str "A"); ("Количество", Py.Str "4")]]
           [Py.Str "A"; Py.Str "B"; Py.Str "A"] [Py.Str "B"; Py.Str "A"] _ eq_refl).
Defined.

(** X2.  On a feed whose code and quantity cells are printable, when
    [create_stocks] raises, the exception is the one raised for the quantity
    of a record of the feed whose code is in the catalog; [offer_ids.remove]
    never raises. *)
Theorem create_stocks_raise_source (watch_remnants : list Py.dict)
  (offer_ids offer_ids' : list Py.obj) (e : exn)
  (Hcells : Forall (fun watch => printable (Py.get "Код" watch) = true
                                 /\ printable (Py.get "Количество" watch) = true)
                   watch_remnants)
  (Hraise : create_stocks watch_remnants offer_ids = (Raise e, offer_ids')) :
  exists watch,
    In watch watch_remnants
    /\ In (code_of watch) offer_ids
    /\ stock_of watch = Raise e.
Proof.
  rewrite create_stocks_unfold in Hraise.
  destruct (create_stocks_feed watch_remnants [] offer_ids) as [[out|e0] ids1] eqn:Hfeed;
    [discriminate|].
  injection Hraise as <- <-. eapply create_stocks_feed_raise. eassumption.
Qed.

(** The theorem at a feed whose second record has no number. *)
Lemma create_stocks_raise_source_witness :
  create_stocks [[("Код", Py.Str "A"); ("Количество", Py.Str "4")];
                 [("Код", Py.Str "B"); ("Количество", Py.Str "many")]]
                [Py.Str "A"; Py.Str "B"]
  = (Raise ValueError, [Py.Str "B"])
  /\ Forall (fun watch => printable (Py.get "Код" watch) = true
                          /\ printable (Py.get "Количество" watch) = true)
            [[("Код", Py.Str "A"); ("Количество", Py.Str "4")];
             [("Код", Py.Str "B"); ("Количество", Py.Str "many")]]
  /\ exists watch, In (code_of watch) [Py.Str "A"; Py.Str "B"]
                   /\ stock_of watch = Raise ValueError.
Proof.
  assert (Hcells : Forall (fun watch => printable (Py.get "Код" watch) = true
                                        /\ printable (Py.get "Количество" watch) = true)
                     [[("Код", Py.Str "A"); ("Количество", Py.Str "4")];
                      [("Код", Py.Str "B"); ("Количество", Py.Str "many")]])
    by (repeat constructor).
  split; [reflexivity|]. split; [exact Hcells|].
  destruct (create_stocks_raise_source
              [[("Код", Py.Str "A"); ("Количество", Py.Str "4")];
               [("Код", Py.Str "B"); ("Количество", Py.Str "many")]]
              [Py.Str "A"; Py.Str "B"] [Py.Str "B"] ValueError Hcells eq_refl)
    as (watch & _ & Hc & Hs).
  now exists watch.
Defined.

(** X3.  The quantity of a record whose code is not in the catalog is never
    read: [create_stocks] returns as soon as the codes of the feed are
    printable and the records whose code is in the catalog have a
    well-formed, printable quantity. *)
Theorem create_stocks_reads_catalogued_only (watch_remnants : list Py.dict)
  (offer_ids : list Py.obj)
  (Hfeed : Forall (fun watch =>
                     printable (Py.get "Код" watch) = true
                     /\ (In (code_of watch) offer_ids ->
                         quantity_ok watch = true
                         /\ printable (Py.get "Количество" watch) = true))
                  watch_remnants) :
  exists stocks offer_ids',
    create_stocks watch_remnants offer_ids = (Ok stocks, offer_ids').
Proof.
  assert (Hq : Forall (fun watch => In (code_of watch) offer_ids ->
                                    quantity_ok watch = true) watch_remnants).
  { eapply Forall_impl; [|exact Hfeed]. intros watch [_ H] Hin. now apply H. }
  destruct (create_stocks_feed_returns_catalogued _ [] _ Hq) as (out & ids1 & Hrun).
  rewrite create_stocks_unfold, Hrun. now eexists _, _.
Qed.

(** The theorem at a feed whose record outside the catalog has no number. *)
Lemma create_stocks_reads_catalogued_only_witness :
  Forall (fun watch =>
            printable (Py.get "Код" watch) = true
            /\ (In (code_of watch) [Py.Str "A"] ->
                quantity_ok watch = true
                /\ printable (Py.get "Количество" watch) = true))
         [[("Код", Py.Str "Z"); ("Количество", Py.Str "many")];
          [("Код", Py.Str "A"); ("Количество", Py.Str "4")]]
  /\ exists stocks offer_ids',
       create_stocks [[("Код", Py.Str "Z"); ("Количество", Py.Str "many")];
                      [("Код", Py.Str "A"); ("Количество", Py.Str "4")]]
                     [Py.Str "A"]
       = (Ok stocks, offer_ids').
Proof.
  assert (H : Forall (fun watch =>
                        printable (Py.get "Код" watch) = true
                        /\ (In (code_of watch) [Py.Str "A"] ->
                            quantity_ok watch = true
                            /\ printable (Py.get "Количество" watch) = true))
                [[("Код", Py.Str "Z"); ("Количество", Py.Str "many")];
                 [("Код", Py.Str "A"); ("Количество", Py.Str "4")]]).
  { constructor; [|constructor; [|constructor]].
    - split; [reflexivity|]. intros [Heq|[]]. discriminate.
    - split; [reflexivity|]. intros _. split; reflexivity. }
  split; [exact H|].
  exact (create_stocks_reads_catalogued_only _ _ H).
Defined.

(** X4.  Whether it returns or raises, [create_stocks] only deletes from
    [offer_ids]: what it leaves is the list with some elements taken out, the
    others in their order. *)
Theorem create_stocks_only_deletes (watch_remnants : list Py.dict)
  (offer_ids : list Py.obj) :
  subseq (snd (create_stocks watch_remnants offer_ids)) offer_ids.
Proof.
  rewrite create_stocks_unfold.
  pose proof (create_stocks_feed_state watch_remnants [] offer_ids) as H.
  now destruct (create_stocks_feed watch_remnants [] offer_ids) as [[out|e] ids1].
Qed.

(** X5.  With a duplicate-free catalog, the update of an identifier carries
    the stock of the first record of the feed with that code; later records
    with the same code are not used. *)
Theorem create_stocks_first_record (watch_remnants : list Py.dict)
  (offer_ids offer_ids' : list Py.obj) (stocks : list Py.dict)
  (offer_id : Py.obj) (watch : Py.dict)
  (Hcat : NoDup offer_ids)
  (Hret : create_stocks watch_remnants offer_ids = (Ok stocks, offer_ids'))
  (Hin : In offer_id offer_ids)
  (Hfirst : first_record offer_id watch_remnants = Some watch) :
  exists v,
    stock_of watch = Ok v
    /\ In (stock_entry offer_id v) stocks
    /\ forall u, In u stocks -> Py.get "offer_id" u = offer_id ->
                 u = stock_entry offer_id v.
Proof.
  pose proof Hret as Hret'. rewrite create_stocks_unfold in Hret'.
  destruct (create_stocks_feed watch_remnants [] offer_ids) as [[out|e] ids1] eqn:Hfeed;
    [|discriminate].
  injection Hret' as <- <-.
  destruct (create_stocks_feed_first _ _ _ _ _ Hcat Hfeed _ _ Hin Hfirst) as (v & Hv & Hout).
  exists v. split; [assumption|].
  assert (Hentry : In (stock_entry offer_id v)
                      (out ++ map (fun offer_id => stock_entry offer_id 0) ids1))
    by (apply in_or_app; now left).
  split; [assumption|].
  intros u Hu Hid.
  pose proof (create_stocks_returned_offer_ids _ _ _ _ Hret) as Hperm.
  assert (Hnd : NoDup (map (Py.get "offer_id")
                           (out ++ map (fun offer_id => stock_entry offer_id 0) ids1)))
    by (apply (Permutation_NoDup (Permutation_sym Hperm) Hcat)).
  revert Hnd Hu Hentry Hid.
  generalize (out ++ map (fun offer_id => stock_entry offer_id 0) ids1). intros l.
  induction l as [|x l IHl]; simpl; intros Hnd Hu Hentry Hid; [contradiction|].
  apply NoDup_cons_iff in Hnd as [Hx Hl].
  destruct Hu as [->|Hu], Hentry as [Hx'|Hentry].
  - now symmetry.
  - exfalso. apply Hx. rewrite Hid. now apply (in_map (Py.get "offer_id")) in Hentry.
  - exfalso. apply Hx. rewrite Hx'. simpl. rewrite <- Hid. now apply in_map.
  - now apply IHl.
Qed.

(** The theorem at a feed that carries [A] twice. *)
Lemma create_stocks_first_record_witness :
  NoDup [Py.Str "A"]
  /\ first_record (Py.Str "A")
       [[("Код", Py.Str "A"); ("Количество", Py.Str ">10")];
        [("Код", Py.Str "A"); ("Количество", Py.Str "3")]]
     = Some [("Код", Py.Str "A"); ("Количество", Py.Str ">10")]
  /\ exists v,
       stock_of [("Код", Py.Str "A"); ("Количество", Py.Str ">10")] = Ok v
       /\ In (stock_entry (Py.Str "A") v) [stock_entry (Py.Str "A") 100].
Proof.
  assert (Hcat : NoDup [Py.Str "A"]) by (repeat constructor; simpl; intuition).
  split; [exact Hcat|]. split; [reflexivity|].
  destruct (create_stocks_first_record
              [[("Код", Py.Str "A"); ("Количество", Py.Str ">10")];
               [("Код", Py.Str "A"); ("Количество", Py.Str "3")]]
              [Py.Str "A"] [] [stock_entry (Py.Str "A") 100] (Py.Str "A")
              [("Код", Py.Str "A"); ("Количество", Py.Str ">10")]
              Hcat eq_refl (or_introl eq_refl) eq_refl)
    as (v & Hv & Hin & _).
  exists v. split; assumption.
Defined.

(** X6.  When the quantities of the feed are the text ">10", strings of
    digits or integer cells that are not negative, every update that
    [create_stocks] returns has an integer stock that is not negative. *)
Theorem create_stocks_nonneg (watch_remnants : list Py.dict)
  (offer_ids offer_ids' : list Py.obj) (stocks : list Py.dict) (u : Py.dict)
  (Hfeed : Forall (fun watch => quantity_nonneg watch = true) watch_remnants)
  (Hret : create_stocks watch_remnants offer_ids = (Ok stocks, offer_ids'))
  (Hu : In u stocks) :
  exists v, Py.get "stock" u = Py.Int v /\ 0 <= v.
Proof.
  rewrite create_stocks_unfold in Hret.
  destruct (create_stocks_feed watch_remnants [] offer_ids) as [[out|e] ids1] eqn:Hrun;
    [|discriminate].
  injection Hret as <- <-.
  destruct (create_stocks_feed_order _ _ _ _ _ Hrun)
    as (covered & updates & Hc & Hupd & -> & _).
  simpl in Hu. apply in_app_or in Hu as [Hu|Hu].
  - destruct (Forall2_In_r _ _ _ _ Hupd Hu) as (watch & Hw & v & Hv & ->).
    exists v. split; [reflexivity|].
    apply (quantity_nonneg_stock_of watch); [|assumption].
    rewrite Forall_forall in Hfeed. apply Hfeed. eapply subseq_In; eassumption.
  - apply in_map_iff in Hu as (offer_id & <- & _). exists 0. split; [reflexivity | lia].
Qed.

(** The theorem at a feed of two records and a catalog of two identifiers. *)
Lemma create_stocks_nonneg_witness :
  Forall (fun watch => quantity_nonneg watch = true)
         [[("Код", Py.Str "A"); ("Количество", Py.Str "12")];
          [("Код", Py.Str "C"); ("Количество", Py.Int 5)]]
  /\ exists v, Py.get "stock" (stock_entry (Py.Str "A") 12) = Py.Int v /\ 0 <= v.
Proof.
  assert (H : Forall (fun watch => quantity_nonneg watch = true)
                [[("Код", Py.Str "A"); ("Количество", Py.Str "12")];
                 [("Код", Py.Str "C"); ("Количество", Py.Int 5)]])
    by (repeat constructor).
  split; [exact H|].
  apply (create_stocks_nonneg _ [Py.Str "B"; Py.Str "A"] [Py.Str "B"]
           [stock_entry (Py.Str "A") 12; stock_entry (Py.Str "B") 0] _ H eq_refl).
  now left.
Defined.

(** X7.  A second call of [create_stocks] with the list the first call has
    consumed (a duplicate-free catalog) maps no record: it returns a
    zero-stock update for each identifier left and reads no quantity. *)
Theorem create_stocks_again (watch_remnants : list Py.dict)
  (offer_ids offer_ids' : list Py.obj) (stocks : list Py.dict)
  (Hcat : NoDup offer_ids)
  (Hret : create_stocks watch_remnants offer_ids = (Ok stocks, offer_ids')) :
  create_stocks watch_remnants offer_ids'
  = (Ok (map (fun offer_id => stock_entry offer_id 0) offer_ids'), offer_ids').
Proof.
  rewrite create_stocks_unfold in Hret.
  destruct (create_stocks_feed watch_remnants [] offer_ids) as [[out|e] ids1] eqn:Hrun;
    [|discriminate].
  injection Hret as _ <-.
  rewrite (create_stocks_feed_leaves _ _ _ _ _ Hcat Hrun), create_stocks_unfold.
  rewrite create_stocks_feed_skips; [reflexivity|].
  intros watch Hin. now apply not_in_feed_excludes.
Qed.

(** The theorem at the feed [A (7)] and the catalog [A, B]. *)
Lemma create_stocks_again_witness :
  NoDup [Py.Str "A"; Py.Str "B"]
  /\ create_stocks [[("Код", Py.Str "A"); ("Количество", Py.Str "7")]] [Py.Str "B"]
     = (Ok [stock_entry (Py.Str "B") 0], [Py.Str "B"]).
Proof.
  assert (Hcat : NoDup [Py.Str "A"; Py.Str "B"]).
  { repeat constructor; simpl; intuition discriminate. }
  split; [exact Hcat|].
  apply (create_stocks_again [[("Код", Py.Str "A"); ("Количество", Py.Str "7")]]
           [Py.Str "A"; Py.Str "B"] [Py.Str "B"]
           [stock_entry (Py.Str "A") 7; stock_entry (Py.Str "B") 0] Hcat eq_refl).
Defined.

(** ** [stock_of] on integer cells *)

From Stdlib Require DecimalZ DecimalPos.

Lemma str_int_parses z :
  NilZero.int_of_string (Py.str (Py.Int z)) = Some (Z.to_int z).
Proof.
  simpl. apply NilZero.isi; destruct z as [|p|p]; simpl; try discriminate;
    intros [= H]; now apply DecimalPos.Unsigned.to_uint_nonnil in H.
Qed.

(** X8.  A printable integer cell (of at most 4300 digits) gives its own
    value as stock, except the integer 1, which gives 0 like the text "1":
    the test of line 211 is made on [str] of the cell. *)
Theorem stock_of_integer_cell (watch : Py.dict) (z : Z)
  (Hcell : Py.get "Количество" watch = Py.Int z)
  (Hprintable : printable (Py.Int z) = true) :
  stock_of watch = Ok (if z =? 1 then 0 else z).
Proof.
  unfold stock_of. rewrite Hcell.
  pose proof (str_int_parses z) as Hparse.
  destruct (String.eqb_spec (Py.str (Py.Int z)) ">10") as [Heq|_].
  - rewrite Heq in Hparse. discriminate.
  - destruct (String.eqb_spec (Py.str (Py.Int z)) "1") as [Heq|Hne].
    + rewrite Heq in Hparse. injection Hparse as Hparse.
      assert (z = 1) as -> by (apply DecimalZ.to_int_inj; now rewrite <- Hparse).
      reflexivity.
    + destruct (Z.eqb_spec z 1) as [->|_]; [now contradiction Hne | reflexivity].
Qed.

(** The theorem at the integer cells 1 and 25. *)
Lemma stock_of_integer_cell_witness :
  printable (Py.Int 1) = true /\ printable (Py.Int 25) = true
  /\ stock_of [("Код", Py.Str "A"); ("Количество", Py.Int 1)] = Ok 0
  /\ stock_of [("Код", Py.Str "A"); ("Количество", Py.Int 25)] = Ok 25.
Proof.
  assert (H1 : printable (Py.Int 1) = true) by (vm_compute; reflexivity).
  assert (H25 : printable (Py.Int 25) = true) by (vm_compute; reflexivity).
  split; [exact H1|]. split; [exact H25|]. split.
  - apply (stock_of_integer_cell [("Код", Py.Str "A"); ("Количество", Py.Int 1)] 1
             eq_refl H1).
  - apply (stock_of_integer_cell [("Код", Py.Str "A"); ("Количество", Py.Int 25)] 25
             eq_refl H25).
Defined.

(** ** [price_conversion] and [create_prices] *)

Lemma sub_non_digits_only_digits s : only_digits (Py.sub_non_digits s) = true.
Proof.
  unfold only_digits. induction s as [|c s IH]; simpl; [reflexivity|].
  destruct (Py.is_digit c) eqn:Hc; simpl; [now rewrite Hc | assumption].
Qed.

Lemma only_digits_fixed s :
  only_digits s = true -> Py.sub_non_digits (Py.split_dot_0 s) = s.
Proof.
  unfold only_digits. induction s as [|c s IH]; simpl; [reflexivity|].
  intros H. apply andb_prop in H as [Hc Hs].
  destruct (Ascii.eqb_spec c ".") as [->|_]; [discriminate|].
  simpl. now rewrite Hc, IH.
Qed.

Lemma split_dot_0_app a b :
  (forall c, In c (list_ascii_of_string a) -> c <> "."%char) ->
  Py.split_dot_0 (a ++ String "." b) = a.
Proof.
  induction a as [|c a IH]; simpl; intros Hno; [reflexivity|].
  destruct (Ascii.eqb_spec c ".") as [->|_].
  - now contradiction (Hno "."%char (or_introl eq_refl)).
  - f_equal. apply IH. intros c' Hc'. apply Hno. now right.
Qed.

Lemma split_dot_0_no_dot a :
  (forall c, In c (list_ascii_of_string a) -> c <> "."%char) ->
  Py.split_dot_0 a = a.
Proof.
  induction a as [|c a IH]; simpl; intros Hno; [reflexivity|].
  destruct (Ascii.eqb_spec c ".") as [->|_].
  - now contradiction (Hno "."%char (or_introl eq_refl)).
  - f_equal. apply IH. intros c' Hc'. apply Hno. now right.
Qed.

(** X9.  [price_conversion] is idempotent: given its own result it returns
    it unchanged; a non-string raises both times. *)
Theorem price_conversion_idempotent (price : Py.obj) :
  result_bind (price_conversion price) (fun r => price_conversion (Py.Str r))
  = price_conversion price.
Proof.
  destruct price as [|z|s]; simpl; try reflexivity.
  f_equal. apply only_digits_fixed, sub_non_digits_only_digits.
Qed.

(** X10.  Only the text before the first full stop counts: whatever follows
    it (the fraction, the currency) does not change the result, so a price is
    cut to its integer part, not rounded. *)
Theorem price_conversion_ignores_fraction (a b : string)
  (Hno : forall c, In c (list_ascii_of_string a) -> c <> "."%char) :
  price_conversion (Py.Str (a ++ String "." b)) = price_conversion (Py.Str a).
Proof.
  simpl. now rewrite split_dot_0_app, split_dot_0_no_dot.
Qed.

(** The theorem at the price 5990.99. *)
Lemma price_conversion_ignores_fraction_witness :
  (forall c, In c (list_ascii_of_string "5990") -> c <> "."%char)
  /\ price_conversion (Py.Str "5990.99 руб.") = Ok "5990".
Proof.
  assert (H : forall c, In c (list_ascii_of_string "5990") -> c <> "."%char).
  { simpl. intros c [<-|[<-|[<-|[<-|[]]]]]; discriminate. }
  split; [exact H|].
  exact (price_conversion_ignores_fraction "5990" "99 руб." H).
Defined.

Lemma create_prices_feed_entries (P : Py.dict -> Prop) offer_ids :
  (forall watch price,
      Py.contains (code_of watch) offer_ids = true ->
      price_conversion (Py.get "Цена" watch) = Ok price ->
      P (price_entry (code_of watch) price)) ->
  forall watch_remnants prices out offer_ids',
    Forall P prices ->
    create_prices_feed watch_remnants prices offer_ids = (Ok out, offer_ids') ->
    Forall P out.
Proof.
  intros HP. induction watch_remnants as [|watch rest IH];
    intros prices out offer_ids' Hprices H.
  - now injection H as <- _.
  - rewrite create_prices_feed_cons in H.
    destruct (Py.contains (code_of watch) offer_ids) eqn:Hin; [|now apply (IH prices out offer_ids')].
    destruct (price_conversion (Py.get "Цена" watch)) as [price|e] eqn:Hp; [|discriminate].
    apply (IH _ out offer_ids' (proj2 (Forall_app _ _ _)
                                   (conj Hprices (Forall_cons _ (HP _ _ Hin Hp) (Forall_nil _))))).
    assumption.
Qed.

(** X11.  Every price update that [create_prices] returns carries a price
    made of digits 0-9 only (possibly none) and an [offer_id] that is in
    [offer_ids]. *)
Theorem create_prices_digits_only (watch_remnants : list Py.dict)
  (offer_ids offer_ids' : list Py.obj) (prices : list Py.dict) (p : Py.dict)
  (Hret : create_prices watch_remnants offer_ids = (Ok prices, offer_ids'))
  (Hp : In p prices) :
  (exists s, Py.get "price" p = Py.Str s /\ only_digits s = true)
  /\ In (Py.get "offer_id" p) offer_ids.
Proof.
  revert p Hp. apply Forall_forall.
  refine (create_prices_feed_entries _ offer_ids _ watch_remnants [] prices offer_ids'
            (Forall_nil _) Hret).
  intros watch price Hin Hconv. split.
  - exists price. split; [reflexivity|].
    destruct (Py.get "Цена" watch) as [|z|s]; try discriminate.
    injection Hconv as <-. apply sub_non_digits_only_digits.
  - now apply contains_In.
Qed.

(** The theorem at the record of the docstring of [create_prices]. *)
Lemma create_prices_digits_only_witness :
  create_prices [[("Код", Py.Str "A123"); ("Цена", Py.Str "5'990.00 руб.")]] [Py.Str "A123"]
  = (Ok [price_entry (Py.Str "A123") "5990"], [Py.Str "A123"])
  /\ exists s, Py.get "price" (price_entry (Py.Str "A123") "5990") = Py.Str s
               /\ only_digits s = true.
Proof.
  split; [reflexivity|].
  apply (create_prices_digits_only
           [[("Код", Py.Str "A123"); ("Цена", Py.Str "5'990.00 руб.")]]
           [Py.Str "A123"] [Py.Str "A123"] [price_entry (Py.Str "A123") "5990"] _ eq_refl).
  now left.
Defined.

Lemma create_prices_feed_raises watch_remnants offer_ids :
  forall prices e,
    fst (create_prices_feed watch_remnants prices offer_ids) = Raise e <->
    e = AttributeError
    /\ Exists (fun watch => Py.contains (code_of watch) offer_ids = true
                            /\ price_is_text watch = false) watch_remnants.
Proof.
  induction watch_remnants as [|watch rest IH]; intros prices e.
  - simpl. split; [discriminate | intros [_ H]; inversion H].
  - rewrite create_prices_feed_cons. unfold price_is_text.
    destruct (Py.contains (code_of watch) offer_ids) eqn:Hin.
    + destruct (Py.get "Цена" watch) as [|z|s] eqn:Hprice; simpl.
      * split; [intros [= <-]; split; [reflexivity | left; now rewrite Hprice]
               | now intros [-> _]].
      * split; [intros [= <-]; split; [reflexivity | left; now rewrite Hprice]
               | now intros [-> _]].
      * rewrite IH. split; intros [He Hex]; (split; [assumption|]).
        -- now right.
        -- inversion Hex as [? ? [_ Hbad]|]; subst; [|assumption].
           rewrite Hprice in Hbad. discriminate.
    + rewrite IH. split; intros [He Hex]; (split; [assumption|]).
      * now right.
      * inversion Hex as [? ? [Hc _]|]; subst; [congruence | assumption].
Qed.

(** X12.  On a feed whose codes are printable, [create_prices] raises
    exactly when some record of the feed whose code is in [offer_ids] has a
    price that is not text, and what it raises is [AttributeError]; the price
    of a record outside [offer_ids] is not read. *)
Theorem create_prices_raises_iff (watch_remnants : list Py.dict)
  (offer_ids : list Py.obj) (e : exn)
  (Hcode : Forall (fun watch => printable (Py.get "Код" watch) = true) watch_remnants) :
  fst (create_prices watch_remnants offer_ids) = Raise e <->
  e = AttributeError
  /\ Exists (fun watch => Py.contains (code_of watch) offer_ids = true
                          /\ price_is_text watch = false) watch_remnants.
Proof. apply create_prices_feed_raises. Qed.

(** The theorem at a feed whose record of the catalog has no price. *)
Lemma create_prices_raises_iff_witness :
  Forall (fun watch => printable (Py.get "Код" watch) = true)
         [[("Код", Py.Str "A"); ("Количество", Py.Str "4")]]
  /\ fst (create_prices [[("Код", Py.Str "A"); ("Количество", Py.Str "4")]] [Py.Str "A"])
     = Raise AttributeError.
Proof.
  assert (Hc : Forall (fun watch => printable (Py.get "Код" watch) = true)
                 [[("Код", Py.Str "A"); ("Количество", Py.Str "4")]])
    by (repeat constructor).
  split; [exact Hc|].
  apply (proj2 (create_prices_raises_iff
                  [[("Код", Py.Str "A"); ("Количество", Py.Str "4")]] [Py.Str "A"]
                  AttributeError Hc)).
  split; [reflexivity|]. left. split; reflexivity.
Defined.

(** ** [divide]: the number of batches *)

(** X13.  For a size of at least 1, [divide] returns the ceiling of
    [len(lst) / n] chunks: none for the empty list. *)
Theorem divide_count {A : Type} (lst : list A) (n : Z) (Hn : 1 <= n) :
  exists chunks,
    divide lst n = Ok chunks /\ Py.len chunks = (Py.len lst + n - 1) / n.
Proof.
  eexists. split; [apply divide_pos; lia|].
  unfold Py.len. rewrite length_map, length_seq.
  unfold Py.range_len, Py.len.
  destruct (Z.ltb_spec 0 n) as [_|?]; [|lia].
  destruct (Z.ltb_spec 0 (Z.of_nat (length lst))) as [Hpos|Hzero].
  - replace (Z.of_nat (length lst) + n - 1) with (Z.of_nat (length lst) - 0 - 1 + 1 * n) by lia.
    rewrite Z.div_add by lia.
    assert (0 <= (Z.of_nat (length lst) - 0 - 1) / n) by (apply Z.div_pos; lia).
    lia.
  - assert (Z.of_nat (length lst) = 0) as -> by lia.
    rewrite Z.div_small by lia. reflexivity.
Qed.

(** The theorem at a list of 5 elements and size 2. *)
Lemma divide_count_witness :
  1 <= 2 /\ exists chunks, divide [1; 2; 3; 4; 5] 2 = Ok chunks /\ Py.len chunks = 3.
Proof.
  split; [lia|]. exact (divide_count [1; 2; 3; 4; 5] 2 ltac:(lia)).
Defined.

(** X14.  A non-empty list that is not longer than the size is returned as
    one chunk: the list itself. *)
Theorem divide_single_chunk {A : Type} (lst : list A) (n : Z)
  (Hne : lst <> []) (Hlen : Py.len lst <= n) :
  divide lst n = Ok [lst].
Proof.
  assert (Hpos : 0 < Py.len lst).
  { destruct lst; [contradiction | unfold Py.len; simpl; lia]. }
  rewrite divide_pos by lia. unfold Py.range_len.
  destruct (Z.ltb_spec 0 n) as [_|?]; [|lia].
  destruct (Z.ltb_spec 0 (Py.len lst)) as [_|?]; [|lia].
  rewrite Z.div_small by lia. simpl. unfold chunk_at. simpl.
  rewrite firstn_all2; [reflexivity|]. unfold Py.len in Hlen. lia.
Qed.

(** The theorem at a list of 3 elements and size 100. *)
Lemma divide_single_chunk_witness :
  [1; 2; 3] <> [] /\ Py.len [1; 2; 3] <= 100 /\ divide [1; 2; 3] 100 = Ok [[1; 2; 3]].
Proof.
  assert (Hne : [1; 2; 3] <> []) by discriminate.
  assert (Hlen : Py.len [1; 2; 3] <= 100) by (unfold Py.len; simpl; lia).
  split; [exact Hne|]. split; [exact Hlen|].
  exact (divide_single_chunk [1; 2; 3] 100 Hne Hlen).
Defined.

(** ** Batches and requests: [main], [upload_prices], [upload_stocks] *)

Lemma divide_batches {A : Type} (lst : list A) (n : Z) chunks :
  0 < n -> divide lst n = Ok chunks ->
  concat chunks = lst /\ Forall (fun c => 1 <= Py.len c <= n) chunks.
Proof.
  intros Hn Hd. rewrite divide_pos in Hd by assumption. injection Hd as <-.
  destruct (range_len_pos lst n Hn) as [Hcover Hstart]. split.
  - rewrite concat_chunks. apply firstn_all2. lia.
  - apply Forall_forall. intros c Hc. apply in_map_iff in Hc as (k & <- & Hk).
    apply in_seq in Hk. unfold Py.len. rewrite length_chunk_at.
    pose proof (Hstart k ltac:(lia)). lia.
Qed.

Lemma for_each_sent {A : Type} (call : A -> result unit) batches sent err :
  for_each call batches = (sent, err) ->
  prefix sent batches /\ (err = None -> sent = batches).
Proof.
  revert sent err. induction batches as [|b bs IH]; simpl; intros sent err H.
  - injection H as <- <-. split; [now exists [] | reflexivity].
  - destruct (call b).
    + destruct (for_each call bs) as [sent' err'] eqn:Hbs. injection H as <- <-.
      destruct (IH _ _ eq_refl) as [[rest Hrest] Hall]. split.
      * exists rest. simpl. now rewrite <- Hrest.
      * intros Hnone. now rewrite (Hall Hnone).
    + injection H as <- <-. split; [now exists bs | discriminate].
Qed.

Lemma Forall_prefix {A : Type} (P : A -> Prop) l1 l2 :
  prefix l1 l2 -> Forall P l2 -> Forall P l1.
Proof. intros [rest ->] H. now apply Forall_app in H. Qed.

(** X15.  Every batch that [main] gives to [update_stocks] has between 1
    and 100 updates, and every batch it gives to [update_price] between 1 and
    900: no request is empty, none exceeds its size. *)
Theorem main_batch_sizes (update_stocks update_price : list Py.dict -> result unit)
  (offer_ids : list Py.obj) (watch_remnants : list Py.dict) :
  Forall (fun batch => 1 <= Py.len batch <= 100)
         (stock_requests (main update_stocks update_price offer_ids watch_remnants))
  /\ Forall (fun batch => 1 <= Py.len batch <= 900)
            (price_requests (main update_stocks update_price offer_ids watch_remnants)).
Proof.
  unfold main.
  destruct (create_stocks watch_remnants offer_ids) as [[stocks|e] ids1];
    [|split; constructor].
  destruct (divide stocks 100) as [batches|e] eqn:Hd; [|split; constructor].
  destruct (divide_batches _ 100 _ eq_refl Hd) as [_ Hsizes].
  destruct (for_each update_stocks batches) as [sent err] eqn:Hsent.
  destruct (for_each_sent _ _ _ _ Hsent) as [Hpre _].
  pose proof (Forall_prefix _ _ _ Hpre Hsizes) as Hsent_sizes.
  destruct err as [e|]; [split; [assumption | constructor]|].
  destruct (create_prices watch_remnants ids1) as [[prices|e] ids2];
    [|split; [assumption | constructor]].
  destruct (divide prices 900) as [price_batches|e] eqn:Hdp;
    [|split; [assumption | constructor]].
  destruct (divide_batches _ 900 _ eq_refl Hdp) as [_ Hpsizes].
  destruct (for_each update_price price_batches) as [psent perr] eqn:Hpsent.
  destruct (for_each_sent _ _ _ _ Hpsent) as [Hppre _].
  split; [assumption | exact (Forall_prefix _ _ _ Hppre Hpsizes)].
Qed.

(** X16.  When the [try] of [main] catches nothing, [create_stocks] and
    [create_prices] have returned and every update of their lists has been
    submitted exactly once, in order: the batches sent, concatenated, are the
    two lists. *)
Theorem main_clean_run (update_stocks update_price : list Py.dict -> result unit)
  (offer_ids : list Py.obj) (watch_remnants : list Py.dict)
  (Hclean : caught (main update_stocks update_price offer_ids watch_remnants) = None) :
  exists stocks offer_ids' price_list,
    create_stocks watch_remnants offer_ids = (Ok stocks, offer_ids')
    /\ create_prices watch_remnants offer_ids' = (Ok price_list, offer_ids')
    /\ concat (stock_requests (main update_stocks update_price offer_ids watch_remnants))
       = stocks
    /\ prices (main update_stocks update_price offer_ids watch_remnants) = Some price_list
    /\ concat (price_requests (main update_stocks update_price offer_ids watch_remnants))
       = price_list.
Proof.
  unfold main in *.
  destruct (create_stocks watch_remnants offer_ids) as [[stocks|e] ids1]; [|discriminate].
  destruct (divide stocks 100) as [batches|e] eqn:Hd; [|discriminate].
  destruct (divide_batches _ 100 _ eq_refl Hd) as [Hcat _].
  destruct (for_each update_stocks batches) as [sent err] eqn:Hsent.
  destruct (for_each_sent _ _ _ _ Hsent) as [_ Hall].
  destruct err as [e|]; [discriminate|]. rewrite (Hall eq_refl).
  destruct (create_prices watch_remnants ids1) as [[price_list|e] ids2] eqn:Hpr;
    [|discriminate].
  pose proof (create_prices_feed_state watch_remnants [] ids1) as Hstate.
  unfold create_prices in Hpr. rewrite Hpr in Hstate. simpl in Hstate. subst ids2.
  destruct (divide price_list 900) as [price_batches|e] eqn:Hdp; [|discriminate].
  destruct (divide_batches _ 900 _ eq_refl Hdp) as [Hpcat _].
  destruct (for_each update_price price_batches) as [psent perr] eqn:Hpsent.
  destruct (for_each_sent _ _ _ _ Hpsent) as [_ Hpall].
  simpl in Hclean. subst perr. rewrite (Hpall eq_refl).
  exists stocks, ids1, price_list. simpl. repeat split; assumption.
Qed.

(** The theorem at the end-to-end scenario, every request succeeding. *)
Lemma main_clean_run_witness :
  caught (main (fun _ => Ok tt) (fun _ => Ok tt) [Py.Str "A"; Py.Str "B"]
            [[("Код", Py.Str "A"); ("Количество", Py.Str ">10"); ("Цена", Py.Str "100.00 p")]])
  = None
  /\ exists stocks offer_ids',
       create_stocks
         [[("Код", Py.Str "A"); ("Количество", Py.Str ">10"); ("Цена", Py.Str "100.00 p")]]
         [Py.Str "A"; Py.Str "B"]
       = (Ok stocks, offer_ids').
Proof.
  split; [reflexivity|].
  destruct (main_clean_run (fun _ => Ok tt) (fun _ => Ok tt) [Py.Str "A"; Py.Str "B"]
              [[("Код", Py.Str "A"); ("Количество", Py.Str ">10");
                ("Цена", Py.Str "100.00 p")]] eq_refl)
    as (stocks & offer_ids' & _ & Hrun & _).
  now exists stocks, offer_ids'.
Defined.

Lemma create_prices_feed_returned watch_remnants offer_ids :
  forall prices out offer_ids',
    create_prices_feed watch_remnants prices offer_ids = (Ok out, offer_ids') ->
    exists updates,
      out = prices ++ updates
      /\ Forall2 price_update_of
           (filter (fun watch => Py.contains (code_of watch) offer_ids) watch_remnants)
           updates.
Proof.
  induction watch_remnants as [|watch rest IH]; intros prices out offer_ids' H.
  - injection H as <- _. exists []. rewrite app_nil_r. split; [reflexivity | constructor].
  - rewrite create_prices_feed_cons in H. cbn [filter].
    destruct (Py.contains (code_of watch) offer_ids); [|now apply (IH _ _ offer_ids')].
    destruct (price_conversion (Py.get "Цена" watch)) as [price|e] eqn:Hp; [|discriminate].
    destruct (IH _ _ _ H) as (updates & -> & Hupd).
    exists (price_entry (code_of watch) price :: updates). split.
    + now rewrite <- app_assoc.
    + constructor; [now exists price | assumption].
Qed.

(** X17.  When [upload_prices] returns, the catalog was fetched, its result
    is the list [create_prices] builds from the fetched catalog (which it
    leaves unchanged), every update of it has been submitted once, in order,
    in batches of 1 to 1000, and the list is not empty as soon as one record
    of the feed has its code in the catalog. *)
Theorem upload_prices_returns (get_product_list : nat -> string -> result page)
  (update_price : list Py.dict -> result unit) (fuel : nat)
  (watch_remnants price_list : list Py.dict)
  (Hret : fst (upload_prices get_product_list update_price fuel watch_remnants)
          = Returned price_list) :
  exists offer_ids,
    get_offer_ids get_product_list fuel = Returned offer_ids
    /\ create_prices watch_remnants offer_ids = (Ok price_list, offer_ids)
    /\ concat (snd (upload_prices get_product_list update_price fuel watch_remnants))
       = price_list
    /\ Forall (fun batch => 1 <= Py.len batch <= 1000)
              (snd (upload_prices get_product_list update_price fuel watch_remnants))
    /\ ((exists watch, In watch watch_remnants /\ In (code_of watch) offer_ids) ->
        price_list <> []).
Proof.
  unfold upload_prices in *.
  destruct (get_offer_ids get_product_list fuel) as [offer_ids|e|]; try discriminate.
  destruct (create_prices watch_remnants offer_ids) as [[out|e] ids2] eqn:Hrun;
    [|discriminate].
  pose proof (create_prices_feed_state watch_remnants [] offer_ids) as Hstate.
  unfold create_prices in Hrun. rewrite Hrun in Hstate. simpl in Hstate. subst ids2.
  destruct (divide out 1000) as [batches|e] eqn:Hd; [|discriminate].
  destruct (divide_batches _ 1000 _ eq_refl Hd) as [Hcat Hsizes].
  destruct (for_each update_price batches) as [sent err] eqn:Hsent.
  destruct (for_each_sent _ _ _ _ Hsent) as [_ Hall].
  destruct err as [e|]; [discriminate|]. simpl in Hret. injection Hret as ->.
  rewrite (Hall eq_refl). simpl.
  exists offer_ids. repeat split; try assumption.
  intros (watch & Hw & Hc) ->.
  destruct (create_prices_feed_returned _ _ _ _ _ Hrun) as (updates & Hout & Hupd).
  symmetry in Hout. apply app_eq_nil in Hout as [_ ->].
  inversion Hupd as [Hfilter|]; subst.
  assert (Hin : In watch (filter (fun watch => Py.contains (code_of watch) offer_ids)
                                 watch_remnants)).
  { apply filter_In. split; [assumption | now apply contains_In]. }
  rewrite <- Hfilter in Hin. destruct Hin.
Qed.

(** The theorem at the end-to-end scenario: unlike [main], [upload_prices]
    submits the price of [A]. *)
Lemma upload_prices_returns_witness :
  upload_prices
    (fun _ _ => Ok (Page [[("offer_id", Py.Str "A")]; [("offer_id", Py.Str "B")]] 2 "x"))
    (fun _ => Ok tt) 1
    [[("Код", Py.Str "A"); ("Количество", Py.Str ">10"); ("Цена", Py.Str "100.00 p")]]
  = (Returned [price_entry (Py.Str "A") "100"], [[price_entry (Py.Str "A") "100"]])
  /\ exists offer_ids,
       get_offer_ids
         (fun _ _ => Ok (Page [[("offer_id", Py.Str "A")]; [("offer_id", Py.Str "B")]] 2 "x")) 1
       = Returned offer_ids.
Proof.
  split; [reflexivity|].
  destruct (upload_prices_returns
              (fun _ _ => Ok (Page [[("offer_id", Py.Str "A")]; [("offer_id", Py.Str "B")]] 2 "x"))
              (fun _ => Ok tt) 1
              [[("Код", Py.Str "A"); ("Количество", Py.Str ">10"); ("Цена", Py.Str "100.00 p")]]
              [price_entry (Py.Str "A") "100"] eq_refl)
    as (offer_ids & Hget & _).
  now exists offer_ids.
Defined.

(** X18.  When [upload_stocks] returns [(not_empty, stocks)], [stocks] is
    the list [create_stocks] builds from the fetched catalog and has been
    submitted in full; [not_empty] is [stocks] without the updates of stock
    0, in the same order; and every update of [not_empty] is for an
    identifier that a record of the feed carries. *)
Theorem upload_stocks_returns (get_product_list : nat -> string -> result page)
  (update_stocks : list Py.dict -> result unit) (fuel : nat)
  (watch_remnants not_empty stocks : list Py.dict)
  (Hret : fst (upload_stocks get_product_list update_stocks fuel watch_remnants)
          = Returned (not_empty, stocks)) :
  exists offer_ids,
    get_offer_ids get_product_list fuel = Returned offer_ids
    /\ fst (create_stocks watch_remnants offer_ids) = Ok stocks
    /\ concat (snd (upload_stocks get_product_list update_stocks fuel watch_remnants))
       = stocks
    /\ subseq not_empty stocks
    /\ (forall u, In u not_empty <-> In u stocks /\ Py.get "stock" u <> Py.Int 0)
    /\ (forall u, In u not_empty ->
                  In (Py.get "offer_id" u) (map code_of watch_remnants)).
Proof.
  unfold upload_stocks in *.
  destruct (get_offer_ids get_product_list fuel) as [offer_ids|e|]; try discriminate.
  destruct (create_stocks watch_remnants offer_ids) as [[out|e] ids1] eqn:Hrun;
    [|discriminate].
  destruct (divide out 100) as [batches|e] eqn:Hd; [|discriminate].
  destruct (divide_batches _ 100 _ eq_refl Hd) as [Hcat _].
  destruct (for_each update_stocks batches) as [sent err] eqn:Hsent.
  destruct (for_each_sent _ _ _ _ Hsent) as [_ Hall].
  destruct err as [e|]; [discriminate|]. simpl in Hret. injection Hret as <- <-.
  rewrite (Hall eq_refl). simpl.
  assert (Hmem : forall u,
             In u (filter (fun stock => negb (Py.eqb (Py.get "stock" stock) (Py.Int 0))) out)
             <-> In u out /\ Py.get "stock" u <> Py.Int 0).
  { intros u. rewrite filter_In. split; intros [Hu Hs]; (split; [assumption|]).
    - intros Heq. rewrite (proj2 (eqb_eq _ _) Heq) in Hs. discriminate.
    - destruct (Py.eqb (Py.get "stock" u) (Py.Int 0)) eqn:Heq; [|reflexivity].
      apply eqb_eq in Heq. contradiction. }
  exists offer_ids. split; [reflexivity|]. split; [now rewrite Hrun|].
  split; [assumption|]. split; [apply subseq_filter|]. split; [exact Hmem|].
  - intros u Hu. apply Hmem in Hu as [Hu Hs].
    rewrite create_stocks_unfold in Hrun.
    destruct (create_stocks_feed watch_remnants [] offer_ids) as [[fed|e] ids2] eqn:Hfeed;
      [|discriminate].
    injection Hrun as <- <-.
    destruct (create_stocks_feed_order _ _ _ _ _ Hfeed)
      as (covered & updates & Hc & Hupd & -> & _).
    simpl in Hu. apply in_app_or in Hu as [Hu|Hu].
    + destruct (Forall2_In_r _ _ _ _ Hupd Hu) as (watch & Hw & v & _ & ->).
      simpl. apply in_map. eapply subseq_In; eassumption.
    + apply in_map_iff in Hu as (offer_id & <- & _). now contradiction Hs.
Qed.

(** The theorem at a feed with the quantities >10 and 1 and a catalog of
    three identifiers. *)
Lemma upload_stocks_returns_witness :
  fst (upload_stocks
         (fun _ _ => Ok (Page [[("offer_id", Py.Str "A")]; [("offer_id", Py.Str "B")];
                               [("offer_id", Py.Str "C")]] 3 "x"))
         (fun _ => Ok tt) 1
         [[("Код", Py.Str "A"); ("Количество", Py.Str ">10")];
          [("Код", Py.Str "B"); ("Количество", Py.Str "1")]])
  = Returned ([stock_entry (Py.Str "A") 100],
              [stock_entry (Py.Str "A") 100; stock_entry (Py.Str "B") 0;
               stock_entry (Py.Str "C") 0])
  /\ subseq [stock_entry (Py.Str "A") 100]
            [stock_entry (Py.Str "A") 100; stock_entry (Py.Str "B") 0;
             stock_entry (Py.Str "C") 0].
Proof.
  split; [reflexivity|].
  destruct (upload_stocks_returns
              (fun _ _ => Ok (Page [[("offer_id", Py.Str "A")]; [("offer_id", Py.Str "B")];
                                    [("offer_id", Py.Str "C")]] 3 "x"))
              (fun _ => Ok tt) 1
              [[("Код", Py.Str "A"); ("Количество", Py.Str ">10")];
               [("Код", Py.Str "B"); ("Количество", Py.Str "1")]]
              [stock_entry (Py.Str "A") 100]
              [stock_entry (Py.Str "A") 100; stock_entry (Py.Str "B") 0;
               stock_entry (Py.Str "C") 0] eq_refl)
    as (offer_ids & _ & _ & _ & Hsub & _).
  exact Hsub.
Defined.

(** ** [get_offer_ids] against particular marketplaces *)

Lemma firstn_succ_nth {A : Type} (l : list A) k d :
  (k < length l)%nat -> firstn (S k) l = firstn k l ++ [nth k l d].
Proof.
  revert k. induction l as [|x l IH]; intros k Hk; simpl in Hk; [lia|].
  destruct k as [|k]; [reflexivity|].
  cbn [firstn nth app]. f_equal. apply IH. lia.
Qed.

Lemma concat_firstn_shorter {A : Type} (pages : list (list A)) k :
  Forall (fun items => items <> []) pages -> (k < length pages)%nat ->
  (length (concat (firstn k pages)) < length (concat pages))%nat.
Proof.
  intros Hne Hk. rewrite <- (firstn_skipn k pages) at 2.
  rewrite concat_app, length_app.
  destruct (skipn k pages) as [|items rest] eqn:Hskip.
  - apply (f_equal (@length _)) in Hskip. rewrite length_skipn in Hskip. simpl in Hskip. lia.
  - assert (Hin : In items pages).
    { rewrite <- (firstn_skipn k pages), Hskip. apply in_or_app. right. now left. }
    rewrite Forall_forall in Hne. specialize (Hne _ Hin).
    destruct items; [contradiction|]. simpl. lia.
Qed.

Section CatalogRuns.

Variable get_product_list : nat -> string -> result page.

Lemma fetched_length k :
  forall m st st',
    (k <= m)%nat ->
    fetched get_product_list k = Ok st -> fetched get_product_list m = Ok st' ->
    (length (fst st) <= length (fst st'))%nat.
Proof.
  intros m st st' Hm Hk. revert st'. induction Hm as [|m Hm IH]; intros st' Hfm.
  - rewrite Hk in Hfm. injection Hfm as <-. lia.
  - simpl in Hfm.
    destruct (fetched get_product_list m) as [stm|e]; [|discriminate].
    simpl in Hfm. destruct (get_product_list m (snd stm)) as [p|e]; [|discriminate].
    injection Hfm as <-. simpl. rewrite length_app. specialize (IH stm eq_refl). lia.
Qed.

Lemma exits_at_total k :
  exits_at get_product_list (S k) = true ->
  exists st st' some_prod,
    fetched get_product_list k = Ok st
    /\ get_product_list k (snd st) = Ok some_prod
    /\ fetched get_product_list (S k) = Ok st'
    /\ page_total some_prod = Py.len (fst st').
Proof.
  simpl. destruct (fetched get_product_list k) as [st|e] eqn:Hst; [|discriminate].
  simpl. destruct (get_product_list k (snd st)) as [p|e] eqn:Hp; [|discriminate].
  intros Hexit. apply Z.eqb_eq in Hexit.
  exists st, (fst st ++ page_items p, page_last_id p), p.
  split; [reflexivity|]. split; [assumption|]. split; [reflexivity | assumption].
Qed.

(** The loop against a marketplace that serves [pages], from the state after
    [calls] of them. *)
Lemma loop_pages (pages : list (list Py.dict)) :
  Forall (fun items => items <> []) pages ->
  (forall k last_id, (k < length pages)%nat ->
     exists some_prod,
       get_product_list k last_id = Ok some_prod
       /\ page_items some_prod = nth k pages []
       /\ page_total some_prod = Py.len (concat pages)) ->
  forall fuel calls last_id,
    (calls < length pages)%nat -> (length pages - calls <= fuel)%nat ->
    get_offer_ids_loop get_product_list fuel calls last_id (concat (firstn calls pages))
    = Returned (map (Py.get "offer_id") (concat pages)).
Proof.
  intros Hne Hserver. induction fuel as [|fuel IH]; intros calls last_id Hc Hfuel; [lia|].
  destruct (Hserver calls last_id Hc) as (p & Hp & Hitems & Htotal).
  simpl. rewrite Hp, Hitems, Htotal.
  replace (concat (firstn calls pages) ++ nth calls pages [])
    with (concat (firstn (S calls) pages))
    by (rewrite (firstn_succ_nth pages calls []) by assumption;
        rewrite concat_app; simpl; now rewrite app_nil_r).
  destruct (Nat.eq_dec (S calls) (length pages)) as [Hlast|Hmore].
  - rewrite Hlast, firstn_all, Z.eqb_refl. reflexivity.
  - pose proof (concat_firstn_shorter pages (S calls) Hne ltac:(lia)) as Hshort.
    destruct (Z.eqb_spec (Py.len (concat pages)) (Py.len (concat (firstn (S calls) pages))))
      as [Heq|_]; [unfold Py.len in Heq; lia|].
    apply IH; lia.
Qed.

End CatalogRuns.

(** X19.  Against a marketplace that serves the catalog in non-empty pages,
    each with the total of the whole catalog, [get_offer_ids] returns the
    [offer_id] of every product, in the order served, as soon as it may make
    as many requests as there are pages. *)
Theorem get_offer_ids_pages (get_product_list : nat -> string -> result page)
  (pages : list (list Py.dict)) (fuel : nat)
  (Hpages : pages <> [])
  (Hne : Forall (fun items => items <> []) pages)
  (Hserver : forall k last_id, (k < length pages)%nat ->
     exists some_prod,
       get_product_list k last_id = Ok some_prod
       /\ page_items some_prod = nth k pages []
       /\ page_total some_prod = Py.len (concat pages))
  (Hfuel : (length pages <= fuel)%nat) :
  get_offer_ids get_product_list fuel
  = Returned (map (Py.get "offer_id") (concat pages)).
Proof.
  unfold get_offer_ids.
  apply (loop_pages get_product_list pages Hne Hserver fuel 0%nat EmptyString).
  - destruct pages; [contradiction | simpl; lia].
  - lia.
Qed.

(** The theorem at a catalog of three products served in two pages. *)
Lemma get_offer_ids_pages_witness :
  get_offer_ids
    (fun k _ =>
       Ok (Page (nth k [[[("offer_id", Py.Str "A")]; [("offer_id", Py.Str "B")]];
                        [[("offer_id", Py.Str "C")]]] [])
                3 "x"))
    2
  = Returned [Py.Str "A"; Py.Str "B"; Py.Str "C"].
Proof.
  apply (get_offer_ids_pages _
           [[[("offer_id", Py.Str "A")]; [("offer_id", Py.Str "B")]];
            [[("offer_id", Py.Str "C")]]] 2%nat).
  - discriminate.
  - repeat constructor; discriminate.
  - intros k last_id _. eexists. repeat split.
  - simpl. lia.
Defined.

(** X20.  The exit test is an equality: once more items have been
    accumulated than the total the marketplace reports (a total that does not
    change), no later request can end the loop, and [get_offer_ids] never
    ends. *)
Theorem get_offer_ids_overshoot (get_product_list : nat -> string -> result page)
  (reported : Z) (k : nat) (st : list Py.dict * string)
  (Hserver : forall calls last_id,
     exists some_prod,
       get_product_list calls last_id = Ok some_prod
       /\ page_total some_prod = reported)
  (Hfetched : fetched get_product_list k = Ok st)
  (Hover : reported < Py.len (fst st))
  (Hbefore : forall j, (j <= k)%nat -> exits_at get_product_list j = false) :
  never_ends get_product_list.
Proof.
  intros fuel.
  pose proof (loop_outcome get_product_list fuel 0%nat EmptyString [] eq_refl) as Hout.
  unfold get_offer_ids.
  destruct (get_offer_ids_loop get_product_list fuel 0 EmptyString []) as [ids|e|];
    [| |reflexivity]; exfalso.
  - destruct Hout as (k' & st' & Hk' & Hexit & _ & Hf' & _).
    destruct (Nat.le_gt_cases k' k) as [Hle|Hgt].
    + rewrite (Hbefore k' Hle) in Hexit. discriminate.
    + destruct k' as [|k']; [lia|].
      destruct (exits_at_total _ _ Hexit) as (st0 & st1 & p & Hf0 & Hp & Hf1 & Htotal).
      destruct (Hserver k' (snd st0)) as (p' & Hp' & Hrep).
      rewrite Hp in Hp'. injection Hp' as <-.
      pose proof (fetched_length get_product_list k (S k') st st1 ltac:(lia) Hfetched Hf1).
      unfold Py.len in *. lia.
  - destruct Hout as (k' & st' & _ & _ & _ & Hraise).
    destruct (Hserver k' (snd st')) as (p & Hp & _). congruence.
Qed.

(** The theorem at a marketplace whose every page has two products and
    reports a total of one. *)
Lemma get_offer_ids_overshoot_witness :
  never_ends
    (fun _ _ => Ok (Page [[("offer_id", Py.Str "A")]; [("offer_id", Py.Str "B")]] 1 "x")).
Proof.
  apply (get_offer_ids_overshoot _ 1 1%nat
           ([[("offer_id", Py.Str "A")]; [("offer_id", Py.Str "B")]], "x")).
  - intros calls last_id. eexists. split; reflexivity.
  - reflexivity.
  - unfold Py.len. simpl. lia.
  - intros j Hj. destruct j as [|[|j]]; [reflexivity | reflexivity | lia].
Defined.

(** X21.  A request that raises ends [get_offer_ids] with that exception:
    when the loop reaches request [k] without having returned and the
    request raises [e], [get_offer_ids] raises [e], whatever was accumulated
    before. *)
Theorem get_offer_ids_request_raises (get_product_list : nat -> string -> result page)
  (fuel k : nat) (st : list Py.dict * string) (e : exn)
  (Hfuel : (k < fuel)%nat)
  (Hfetched : fetched get_product_list k = Ok st)
  (Hbefore : forall j, (j <= k)%nat -> exits_at get_product_list j = false)
  (Hraise : get_product_list k (snd st) = Raise e) :
  get_offer_ids get_product_list fuel = Raised e.
Proof.
  assert (Hnext : fetched get_product_list (S k) = Raise e).
  { simpl. rewrite Hfetched. simpl. now rewrite Hraise. }
  pose proof (loop_outcome get_product_list fuel 0%nat EmptyString [] eq_refl) as Hout.
  unfold get_offer_ids.
  destruct (get_offer_ids_loop get_product_list fuel 0 EmptyString []) as [ids|e'|].
  - exfalso. destruct Hout as (k' & st' & Hk' & Hexit & _ & Hf' & _).
    destruct (Nat.le_gt_cases k' k) as [Hle|Hgt].
    + rewrite (Hbefore k' Hle) in Hexit. discriminate.
    + rewrite (fetched_raise _ _ _ Hnext k') in Hf' by lia. discriminate.
  - destruct Hout as (k' & st' & Hk' & _ & Hf' & Hraise').
    destruct (Nat.lt_trichotomy k' k) as [Hlt|[->|Hgt]].
    + exfalso.
      assert (Hn : fetched get_product_list (S k') = Raise e')
        by (simpl; rewrite Hf'; simpl; now rewrite Hraise').
      rewrite (fetched_raise _ _ _ Hn k) in Hfetched by lia. discriminate.
    + rewrite Hfetched in Hf'. injection Hf' as <-. congruence.
    + exfalso. rewrite (fetched_raise _ _ _ Hnext k') in Hf' by lia. discriminate.
  - exfalso. destruct Hout as [_ [st' Hf']]. rewrite Nat.add_0_l in Hf'.
    rewrite (fetched_raise _ _ _ Hnext fuel) in Hf' by lia. discriminate.
Qed.

(** The theorem at a marketplace whose second request fails. *)
Lemma get_offer_ids_request_raises_witness :
  get_offer_ids
    (fun k _ => match k with
                | O => Ok (Page [[("offer_id", Py.Str "A")]] 2 "x")
                | S _ => Raise HTTPError
                end) 5
  = Raised HTTPError.
Proof.
  apply (get_offer_ids_request_raises _ 5 1 ([[("offer_id", Py.Str "A")]], "x") HTTPError).
  - lia.
  - reflexivity.
  - intros j Hj. destruct j as [|[|j]]; [reflexivity | reflexivity | lia].
  - reflexivity.
Defined.

